(** * Flight data generator (scripts/generate_flight_data_csv.py)

    A shallow embedding of [FlightDataGeneratorCSV] and [main], and the
    properties of the generated records and of the written file.

    Python integers are unbounded, so they are [Z].  The interpreter's ambient
    state (the [random] module's generator, the wall clock, the destination
    file, standard output) is one explicit [world], threaded through a state
    monad that also carries Python exceptions: a raised exception keeps the
    world it was raised in, as the file written so far stays on disk.

    Floating point is IEEE binary64, as CPython's [float]: the kernel's
    primitive floats.  Dates are CPython's [datetime]: a calendar day and its
    proleptic Gregorian ordinal.

    What the model leaves out: the text of the two configured dates is held
    as its three numbers (a text that is no number at all is not a
    configuration here); the directory tree is not part of the world, so
    [os.makedirs] fails only on the one name that no tree can hold, the
    empty one, and [open] succeeds; the [tqdm] progress bar only displays; a
    row is kept as the dict given to [writerow], not as its comma-separated
    text. *)

From Stdlib Require Import ZArith List String Ascii Bool Lia Floats Sorted.
From Stdlib Require Import DecimalString.
Import ListNotations.

Open Scope bool_scope.
Open Scope string_scope.
Open Scope list_scope.
Open Scope Z_scope.

Set Warnings "-inexact-float".

(** ** Exceptions, records, lines of the file, messages *)

(** The exceptions the script can raise.  All four derive from Python's
    [Exception]. *)
Inductive exn : Type :=
  | ValueError
  | ZeroDivisionError
  | OverflowError
  | FileNotFoundError.

Definition is_Exception (e : exn) : bool :=
  match e with
  | ValueError | ZeroDivisionError | OverflowError | FileNotFoundError => true
  end.

(** A calendar day, the three numeric fields of a ['%Y-%m-%d'] text. *)
Record ymd : Type := mkYmd { year : Z; month : Z; day : Z }.

(** CONFIG (lines 16-22). *)
Record config : Type := mkConfig {
  output_file : string;
  total_records : Z;
  batch_size : Z;
  start_date : ymd;
  end_date : ymd
}.

(** The dict returned by [generate_flight_record] (lines 89-101), one field
    per key.  [flight_date] is the day that [strftime('%Y-%m-%d')] prints;
    [created_at] is the clock reading that [strftime] prints to the second. *)
Record FlightRecord : Type := mkFlightRecord {
  record_id : Z;
  route_id : Z;
  flight_date : ymd;
  flight_number : string;
  aircraft_type : string;
  passengers : Z;
  load_factor : string;
  cabin_class : string;
  total_co2_kg : Z;
  co2_per_passenger_kg : Z;
  created_at : Z
}.

(** What [csv.DictWriter] appends to the file: the header, or one row. *)
Inductive csv_line : Type :=
  | Header (names : list string)
  | Row (r : FlightRecord).

(** What the script prints. *)
Inductive message : Type :=
  | MsgGenerating (n : Z)
  | MsgDateRange (s e : ymd)
  | MsgSuccess (n : Z)
  | MsgSavedTo (path : string)
  | MsgFileSize (lines : nat)
  | MsgCompleted (elapsed : Z)
  | MsgError (e : exn).

(** ** The world *)

(** [entropy] is the output of the random generator, one raw draw per call of
    [_randbelow] or [random()]; [cursor] counts the draws consumed.
    [wall_clock] and [clock_reads] do the same for [datetime.now()].
    [disk] is the content of the file at [output_file] ([None]: no such
    file); [flushes] counts the calls of [csvfile.flush()]. *)
Record world : Type := mkWorld {
  entropy : nat -> Z;
  cursor : nat;
  wall_clock : nat -> Z;
  clock_reads : nat;
  disk : option (list csv_line);
  flushes : nat;
  stdout : list message
}.

Definition set_cursor (n : nat) (w : world) : world :=
  mkWorld (entropy w) n (wall_clock w) (clock_reads w) (disk w) (flushes w) (stdout w).

Definition set_clock_reads (n : nat) (w : world) : world :=
  mkWorld (entropy w) (cursor w) (wall_clock w) n (disk w) (flushes w) (stdout w).

Definition set_disk (d : option (list csv_line)) (w : world) : world :=
  mkWorld (entropy w) (cursor w) (wall_clock w) (clock_reads w) d (flushes w) (stdout w).

Definition set_flushes (n : nat) (w : world) : world :=
  mkWorld (entropy w) (cursor w) (wall_clock w) (clock_reads w) (disk w) n (stdout w).

Definition set_stdout (l : list message) (w : world) : world :=
  mkWorld (entropy w) (cursor w) (wall_clock w) (clock_reads w) (disk w) (flushes w) l.

(** ** The monad of Python statements *)

Inductive outcome (A : Type) : Type :=
  | Ok (a : A)
  | Raised (e : exn).

Arguments Ok {A} a.
Arguments Raised {A} e.

Definition M (A : Type) : Type := world -> outcome A * world.

Definition ret {A : Type} (a : A) : M A := fun w => (Ok a, w).

Definition raise {A : Type} (e : exn) : M A := fun w => (Raised e, w).

Definition bind {A B : Type} (c : M A) (k : A -> M B) : M B :=
  fun w =>
    match c w with
    | (Ok a, w1) => k a w1
    | (Raised e, w1) => (Raised e, w1)
    end.

Notation "x <- c ;; k" := (bind c (fun x => k))
  (at level 61, c at next level, right associativity).
Notation "c ;;; k" := (bind c (fun _ => k))
  (at level 61, right associativity).

(** [try: body  except Exception as e: handler e]. *)
Definition try_except {A : Type} (body : M A) (handler : exn -> M A) : M A :=
  fun w =>
    match body w with
    | (Ok a, w1) => (Ok a, w1)
    | (Raised e, w1) => if is_Exception e then handler e w1 else (Raised e, w1)
    end.

(** ** The [random] module *)

(** [Random._randbelow(n)], for [0 < n]: the next raw draw, reduced into
    [0, n).  The generator is uniform over the raw draws. *)
Definition randbelow (n : Z) : M Z :=
  fun w => (Ok (entropy w (cursor w) mod n), set_cursor (S (cursor w)) w).

(** [random.randint(a, b)] is [randrange(a, b+1)]: [a + _randbelow(width)]
    when the width is positive, [ValueError("empty range ...")] otherwise. *)
Definition randint (a b : Z) : M Z :=
  let width := b + 1 - a in
  if 0 <? width then r <- randbelow width ;; ret (a + r)
  else raise ValueError.

(** [random.choice(seq)] is [seq[_randbelow(len(seq))]]. *)
Definition choice (seq : list string) : M string :=
  i <- randbelow (Z.of_nat (List.length seq)) ;;
  ret (nth (Z.to_nat i) seq "").

(** [round(random.uniform(60.0, 95.0), 2)].  [uniform] returns a double in
    [60.0, 95.0], and [round(x, 2)] the double nearest to the two-decimal
    number nearest to [x]: the result is the double nearest to [k/100] for an
    integer [6000 <= k <= 9500].  The model draws [k], the load factor in
    hundredths, from one raw draw; the double is [hundredths_to_float k].
    How likely each [k] is plays no part below. *)
Definition uniform_round2_hundredths : M Z := randint 6000 9500.

(** ** [datetime.now()] *)

Definition now : M Z :=
  fun w => (Ok (wall_clock w (clock_reads w)), set_clock_reads (S (clock_reads w)) w).

(** ** Standard output and the destination file *)

Definition print (m : message) : M unit :=
  fun w => (Ok tt, set_stdout (stdout w ++ [m]) w).

(** [open(path, 'w', newline='')]: the file is created, or emptied. *)
Definition open_w : M unit :=
  fun w => (Ok tt, set_disk (Some []) w).

Definition append_line (l : csv_line) : M unit :=
  fun w =>
    (Ok tt, set_disk (Some (match disk w with Some ls => ls ++ [l] | None => [l] end)) w).

Definition flush : M unit :=
  fun w => (Ok tt, set_flushes (S (flushes w)) w).

(** [os.path.getsize], here the number of lines. *)
Definition getsize : M nat :=
  fun w => (Ok (match disk w with Some ls => List.length ls | None => O end), w).

(** ** Text *)

(** [str(n)] for an integer. *)
Definition str (n : Z) : string := NilZero.string_of_int (Z.to_int n).

Fixpoint zeros (n : nat) : string :=
  match n with
  | O => ""
  | S n' => String "0" (zeros n')
  end.

(** [s.zfill(width)] for a string of digits. *)
Definition zfill (width : nat) (s : string) : string :=
  (zeros (width - String.length s)%nat ++ s)%string.

(** The format [{n:04d}]: at least four characters, zero-padded after the
    sign. *)
Definition format_04d (n : Z) : string :=
  if n <? 0 then ("-" ++ zfill 3 (str (- n)))%string else zfill 4 (str n).

(** The format [{x:.2f}] of the double nearest to [k/100], [0 <= k]: the
    decimal [k/100] with two fraction digits. *)
Definition format_2f_hundredths (k : Z) : string :=
  (str (k / 100) ++ "." ++ zfill 2 (str (k mod 100)))%string.

(** [needle in hay] *)
Definition contains (needle hay : string) : bool :=
  match index 0 needle hay with
  | Some _ => true
  | None => false
  end.

(** ** Paths and directories *)

Definition is_sep (c : ascii) : bool := Ascii.eqb c "/".

(** The cut of [posixpath.split], [dirname] and [basename]:
    [(p[:i], p[i:])] for [i = p.rfind('/') + 1]. *)
Fixpoint cut_after_last_sep (p : string) : string * string :=
  match p with
  | EmptyString => ("", "")
  | String c s =>
      match cut_after_last_sep s with
      | (EmptyString, _) => if is_sep c then ("/", s) else ("", String c s)
      | (head, tail) => (String c head, tail)
      end
  end.

(** [head == '/' * len(head)] *)
Fixpoint all_sep (s : string) : bool :=
  match s with
  | EmptyString => true
  | String c s' => is_sep c && all_sep s'
  end.

(** [head.rstrip('/')] *)
Fixpoint rstrip_sep (s : string) : string :=
  match s with
  | EmptyString => ""
  | String c s' =>
      match rstrip_sep s' with
      | EmptyString => if is_sep c then "" else String c ""
      | t => String c t
      end
  end.

(** [os.path.dirname]: the head of the cut, without its trailing slashes
    unless it is made of slashes only. *)
Definition dirname (p : string) : string :=
  let head := fst (cut_after_last_sep p) in
  if negb (head =? "")%string && negb (all_sep head) then rstrip_sep head else head.

(** [os.path.basename] *)
Definition basename (p : string) : string := snd (cut_after_last_sep p).

(** [os.makedirs(name, exist_ok=True)].  For the empty name [mkdir] fails
    with [ENOENT], and [exist_ok] does not cover it, the empty name being no
    directory: [FileNotFoundError].  Any other name is taken to be one that
    can be made, or is there already. *)
Definition makedirs (name : string) : M unit :=
  match name with
  | EmptyString => raise FileNotFoundError
  | String _ _ => ret tt
  end.

(** ** Floats *)

(** [float(n)] for an integer [0 <= n < 2^53], which is exact. *)
Definition float_of_Z (n : Z) : float := PrimFloat.of_uint63 (Uint63.of_Z n).

(** [int(x)]: truncation toward zero; [ValueError] on a NaN, [OverflowError]
    on an infinity.  [Prim2SF] reads a double as sign, mantissa and exponent:
    a finite [x] is [(-1)^s * m * 2^e]. *)
Definition trunc_float (x : float) : exn + Z :=
  match Prim2SF x with
  | S754_zero _ => inr 0
  | S754_infinity _ => inl OverflowError
  | S754_nan => inl ValueError
  | S754_finite s m e =>
      let v := match e with
               | Z0 => Zpos m
               | Zpos p => Z.shiftl (Zpos m) (Zpos p)
               | Zneg p => Z.shiftr (Zpos m) (Zpos p)
               end in
      inr (if s then - v else v)
  end.

Definition int_of_float (x : float) : M Z :=
  match trunc_float x with
  | inr n => ret n
  | inl e => raise e
  end.

(** The double nearest to [k/100]. *)
Definition hundredths_to_float (k : Z) : float := (float_of_Z k / 100)%float.

(** ** [datetime] *)

(** CPython's [datetime] module: [_is_leap], [_days_before_year],
    [_DAYS_IN_MONTH], [_days_in_month], [_DAYS_BEFORE_MONTH],
    [_days_before_month], [_ymd2ord], [_ord2ymd]. *)
Definition is_leap (y : Z) : bool :=
  (y mod 4 =? 0) && (negb (y mod 100 =? 0) || (y mod 400 =? 0)).

Definition days_before_year (y : Z) : Z :=
  let y := y - 1 in y * 365 + y / 4 - y / 100 + y / 400.

Definition DAYS_IN_MONTH : list Z :=
  [-1; 31; 28; 31; 30; 31; 30; 31; 31; 30; 31; 30; 31].

Definition days_in_month (y m : Z) : Z :=
  if (m =? 2) && is_leap y then 29 else nth (Z.to_nat m) DAYS_IN_MONTH 0.

Definition DAYS_BEFORE_MONTH : list Z :=
  [-1; 0; 31; 59; 90; 120; 151; 181; 212; 243; 273; 304; 334].

Definition days_before_month (y m : Z) : Z :=
  nth (Z.to_nat m) DAYS_BEFORE_MONTH 0 + (if (2 <? m) && is_leap y then 1 else 0).

Definition ymd2ord (d : ymd) : Z :=
  days_before_year (year d) + days_before_month (year d) (month d) + day d.

Definition DI400Y : Z := 146097.
Definition DI100Y : Z := 36524.
Definition DI4Y : Z := 1461.

(** The end of [_ord2ymd]: month and day of the day number [n] (from 0) of
    a year. *)
Definition month_and_day (leapyear : bool) (n : Z) : Z * Z :=
  let m := Z.shiftr (n + 50) 5 in
  let preceding :=
    nth (Z.to_nat m) DAYS_BEFORE_MONTH 0 + (if (2 <? m) && leapyear then 1 else 0) in
  if n <? preceding then
    let m := m - 1 in
    let preceding :=
      preceding - (nth (Z.to_nat m) DAYS_IN_MONTH 0
                   + (if (m =? 2) && leapyear then 1 else 0)) in
    (m, n - preceding + 1)
  else (m, n - preceding + 1).

Definition ord2ymd (n : Z) : ymd :=
  let n := n - 1 in
  let n400 := n / DI400Y in
  let n := n mod DI400Y in
  let y := n400 * 400 + 1 in
  let n100 := n / DI100Y in
  let n := n mod DI100Y in
  let n4 := n / DI4Y in
  let n := n mod DI4Y in
  let n1 := n / 365 in
  let n := n mod 365 in
  let y := y + n100 * 100 + n4 * 4 + n1 in
  if (n1 =? 4) || (n100 =? 4) then mkYmd (y - 1) 12 31
  else
    let leapyear := (n1 =? 3) && (negb (n4 =? 24) || (n100 =? 3)) in
    let md := month_and_day leapyear n in
    mkYmd y (fst md) (snd md).

Definition MINYEAR : Z := 1.
Definition MAXYEAR : Z := 9999.
(** [date.max.toordinal()], 9999-12-31. *)
Definition MAXORDINAL : Z := 3652059.

(** The fields of a day that exists: what [datetime(y, m, d)] accepts. *)
Definition valid_ymd (d : ymd) : bool :=
  (MINYEAR <=? year d) && (year d <=? MAXYEAR)
  && (1 <=? month d) && (month d <=? 12)
  && (1 <=? day d) && (day d <=? days_in_month (year d) (month d)).

(** A [datetime] at midnight is held as its proleptic Gregorian ordinal
    ([toordinal()]).  [datetime.strptime(text, '%Y-%m-%d')]: [ValueError] for
    the text of a day that does not exist. *)
Definition strptime (d : ymd) : M Z :=
  if valid_ymd d then ret (ymd2ord d) else raise ValueError.

(** [dt + timedelta(days=n)]: [OverflowError] outside [date.min, date.max]. *)
Definition add_days (dt n : Z) : M Z :=
  let r := dt + n in
  if (1 <=? r) && (r <=? MAXORDINAL) then ret r else raise OverflowError.

(** The day a [datetime] prints with [strftime('%Y-%m-%d')]. *)
Definition strftime_ymd (dt : Z) : ymd := ord2ymd dt.

(** ** [FlightDataGeneratorCSV] *)

(** [self.aircraft_types] and [self.airline_codes] (lines 29-33). *)
Definition aircraft_types : list string :=
  ["A320"; "B737"; "A321"; "B738"; "A319"; "B739"; "A20N"; "B38M"; "A21N"; "B789";
   "A359"; "B77W"; "B788"; "A333"; "A350"; "B772"; "B77L"; "A332"; "B763"; "A306"].

Definition airline_codes : list string :=
  ["AA"; "DL"; "UA"; "BA"; "LH"; "AF"; "EK"; "SQ"; "QF"; "JL"].

(** [FlightDataGeneratorCSV(config)]: [__init__] (lines 27-36) keeps the
    configuration and makes the directory of the destination.  The instance
    is the configuration it keeps; its two lists are the constants above. *)
Definition FlightDataGeneratorCSV (cfg : config) : M config :=
  makedirs (dirname (output_file cfg)) ;;;
  ret cfg.

(** [fieldnames] (lines 109-121). *)
Definition fieldnames : list string :=
  ["record_id"; "route_id"; "flight_date"; "flight_number"; "aircraft_type";
   "passengers"; "load_factor"; "cabin_class"; "total_co2_kg";
   "co2_per_passenger_kg"; "created_at"].

(** Lines 55-60: the cabin class of the draw [rand_val]. *)
Definition cabin_class_of (rand_val : Z) : string :=
  if rand_val <? 85 then "economy"
  else if rand_val <? 97 then "business"
  else "first".

(** Line 63: the test of the narrow-body branch. *)
Definition is_narrow_body (aircraft_type : string) : bool :=
  contains "A3" aircraft_type || contains "B73" aircraft_type.

(** Lines 63-68: [max_pax] and [base_co2] before the cabin class applies. *)
Definition draw_body (aircraft_type : string) : M (Z * Z) :=
  if is_narrow_body aircraft_type then
    max_pax <- randint 150 220 ;;
    base_co2 <- randint 80 120 ;;
    ret (max_pax, base_co2)
  else
    max_pax <- randint 250 400 ;;
    base_co2 <- randint 150 250 ;;
    ret (max_pax, base_co2).

(** Lines 71-76: [max_pax] and [base_co2] adjusted for the cabin class. *)
Definition adjust_for_cabin (cabin_class : string) (max_pax base_co2 : Z) : M (Z * Z) :=
  if (cabin_class =? "business")%string then
    max_pax' <- int_of_float (float_of_Z max_pax * 0.6)%float ;;
    base_co2' <- int_of_float (float_of_Z base_co2 * 1.5)%float ;;
    ret (max_pax', base_co2')
  else if (cabin_class =? "first")%string then
    max_pax' <- int_of_float (float_of_Z max_pax * 0.3)%float ;;
    base_co2' <- int_of_float (float_of_Z base_co2 * 2.0)%float ;;
    ret (max_pax', base_co2')
  else ret (max_pax, base_co2).

(** [generate_flight_record] (lines 38-101). *)
Definition generate_flight_record (self : config) (record_id route_id : Z) : M FlightRecord :=
  start_date <- strptime (start_date self) ;;
  end_date <- strptime (end_date self) ;;
  let date_range := end_date - start_date in
  offset <- randint 0 date_range ;;
  flight_date <- add_days start_date offset ;;
  airline <- choice airline_codes ;;
  number <- randint 100 9999 ;;
  let flight_number := substring 0 10 (airline ++ format_04d number)%string in
  aircraft_type <- choice aircraft_types ;;
  rand_val <- randint 1 100 ;;
  let cabin_class := cabin_class_of rand_val in
  body <- draw_body aircraft_type ;;
  adjusted <- adjust_for_cabin cabin_class (fst body) (snd body) ;;
  let max_pax := fst adjusted in
  let base_co2 := snd adjusted in
  hundredths <- uniform_round2_hundredths ;;
  let load_factor := hundredths_to_float hundredths in
  passengers <- int_of_float (float_of_Z max_pax * (load_factor / 100))%float ;;
  let co2_per_pax := base_co2 in
  let total_co2 := passengers * co2_per_pax in
  created_at <- now ;;
  ret {| record_id := record_id;
         route_id := route_id;
         flight_date := strftime_ymd flight_date;
         flight_number := flight_number;
         aircraft_type := aircraft_type;
         passengers := passengers;
         load_factor := format_2f_hundredths hundredths;
         cabin_class := cabin_class;
         total_co2_kg := total_co2;
         co2_per_passenger_kg := co2_per_pax;
         created_at := created_at |}.

(** The body of the loop of [generate_to_csv] (lines 132-142), for index [i].
    The progress bar only displays and is left out. *)
Definition write_record (self : config) (i : Z) : M unit :=
  route_id <- randint 1 10000 ;;
  record <- generate_flight_record self i route_id ;;
  append_line (Row record) ;;;
  (if batch_size self =? 0 then raise ZeroDivisionError
   else if i mod batch_size self =? 0 then flush
   else ret tt).

(** [for i in range(1, total_records + 1)]: [n] indices remain, from [i]. *)
Fixpoint write_records (self : config) (n : nat) (i : Z) : M unit :=
  match n with
  | O => ret tt
  | S n' => write_record self i ;;; write_records self n' (i + 1)
  end.

(** [generate_to_csv] (lines 103-149).  Leaving the [with] block closes the
    file, on an exception too: what was written is on disk.  Line 124 asks
    again for the directory that [__init__] made when [self] was constructed,
    and is left out. *)
Definition generate_to_csv (self : config) : M unit :=
  print (MsgGenerating (total_records self)) ;;;
  print (MsgDateRange (start_date self) (end_date self)) ;;;
  open_w ;;;
  append_line (Header fieldnames) ;;;
  write_records self (Z.to_nat (total_records self)) 1 ;;;
  print (MsgSuccess (total_records self)) ;;;
  print (MsgSavedTo (output_file self)) ;;;
  size <- getsize ;;
  print (MsgFileSize size).

(** ** [main] *)

Definition CONFIG : config :=
  {| output_file := "data/flight_records.csv";
     total_records := 1000000;
     batch_size := 100000;
     start_date := mkYmd 2024 1 1;
     end_date := mkYmd 2024 12 31 |}.

(** [main] (lines 151-166), for a configuration [cfg].  The two directories
    are made, and the generator constructed, before the [try]: an exception
    raised there is not caught. *)
Definition main_with (cfg : config) : M unit :=
  makedirs "data" ;;;
  generator <- FlightDataGeneratorCSV cfg ;;
  try_except
    (start_time <- now ;;
     generate_to_csv generator ;;;
     end_time <- now ;;
     print (MsgCompleted (end_time - start_time)))
    (fun e => print (MsgError e)).

Definition main : M unit := main_with CONFIG.



(** The rows of a file, and the file with nothing but the header. *)
Definition rows_of (f : list csv_line) : list FlightRecord :=
  flat_map (fun l => match l with Row r => [r] | Header _ => [] end) f.

Definition header_only : list csv_line := [Header fieldnames].

(** A world to run examples in: the raw draws are 7919, 15838, ..., the clock
    ticks once per reading, and no file exists yet. *)
Definition example_world : world :=
  {| entropy := fun n => 7919 * Z.of_nat (S n);
     cursor := 0;
     wall_clock := fun n => 1700000000 + Z.of_nat n;
     clock_reads := 0;
     disk := None;
     flushes := 0;
     stdout := [] |}.

Definition small_config (n : Z) : config :=
  {| output_file := "data/flight_records.csv";
     total_records := n;
     batch_size := 2;
     start_date := mkYmd 2024 1 1;
     end_date := mkYmd 2024 12 31 |}.

(** ** Definitions used to state and check the properties *)

(** The integers [lo, lo + 1, ..., lo + n - 1]. *)
Fixpoint zrange (lo : Z) (n : nat) : list Z :=
  match n with
  | O => []
  | S n' => lo :: zrange (lo + 1) n'
  end.

(** The order of calendar days: years, then months, then days. *)
Definition ymd_lt (a b : ymd) : Prop :=
  year a < year b
  \/ (year a = year b
      /\ (month a < month b \/ (month a = month b /\ day a < day b))).

Definition ymd_le (a b : ymd) : Prop := ymd_lt a b \/ a = b.

(** What [month_and_day] must return for day number [n]. *)
Definition month_and_day_ok (leapyear : bool) (n : Z) : bool :=
  let md := month_and_day leapyear n in
  let m := fst md in
  let d := snd md in
  (1 <=? m) && (m <=? 12) && (1 <=? d)
  && (d <=? (if (m =? 2) && leapyear then 29 else nth (Z.to_nat m) DAYS_IN_MONTH 0))
  && (nth (Z.to_nat m) DAYS_BEFORE_MONTH 0 + (if (2 <? m) && leapyear then 1 else 0) + d
      =? n + 1).

Definition int_2p52 : PrimInt63.int := Eval vm_compute in Uint63.of_Z (2 ^ 52).
Definition int_2p53 : PrimInt63.int := Eval vm_compute in Uint63.of_Z (2 ^ 53).
Definition int_2102 : PrimInt63.int := Eval vm_compute in Uint63.of_Z 2102.
Definition int_2154 : PrimInt63.int := Eval vm_compute in Uint63.of_Z 2154.

(** A test of [0 <= int(x) <= m] that computes on machine integers only. *)
Definition trunc_le_fast (x : float) (m : Z) : bool :=
  negb (is_nan x) && negb (is_zero x) && negb (is_infinity x) && negb (get_sign x)
  && (let (r, se) := frshiftexp x in
      let n := normfr_mantissa r in
      Uint63.leb int_2p52 n && Uint63.ltb n int_2p53
      && Uint63.leb int_2102 se && Uint63.leb se int_2154
      && Uint63.leb (Uint63.lsr n (Uint63.sub int_2154 se)) (Uint63.of_Z m)).

(** [int(x) = v], as a test. *)
Definition trunc_is (x : float) (v : Z) : bool :=
  match trunc_float x with
  | inr n => n =? v
  | inl _ => false
  end.

(** Line 80 for every capacity from 45 to 400, at load factor [k/100]. *)
Definition passengers_check (k : Z) : bool :=
  let y := (hundredths_to_float k / 100)%float in
  forallb (fun m => trunc_le_fast (float_of_Z m * y)%float m) (zrange 45 356).

(** The [i]-th raw draw that a computation started in [w] consumes. *)
Definition raw (w : world) (i : nat) : Z := entropy w (i + cursor w)%nat.

(** The values [generate_flight_record] draws when it starts in [w], by the
    raw draw each comes from: the day offset (line 44), the airline (47), the
    flight number (48), the aircraft type (51), the cabin selector (54),
    [max_pax] and [base_co2] (64-65 or 67-68), the load factor (79). *)
Definition drawn_offset (self : config) (w : world) : Z :=
  0 + raw w 0 mod (ymd2ord (end_date self) - ymd2ord (start_date self) + 1 - 0).

Definition drawn_airline (w : world) : string :=
  nth (Z.to_nat (raw w 1 mod 10)) airline_codes "".

Definition drawn_number (w : world) : Z := 100 + raw w 2 mod 9900.

Definition drawn_aircraft (w : world) : string :=
  nth (Z.to_nat (raw w 3 mod 20)) aircraft_types "".

Definition drawn_rand_val (w : world) : Z := 1 + raw w 4 mod 100.

Definition drawn_body (w : world) : Z * Z :=
  if is_narrow_body (drawn_aircraft w)
  then (150 + raw w 5 mod 71, 80 + raw w 6 mod 41)
  else (250 + raw w 5 mod 151, 150 + raw w 6 mod 101).

Definition drawn_hundredths (w : world) : Z := 6000 + raw w 7 mod 3501.

(** [max_pax] and [base_co2] after lines 71-76, in exact arithmetic:
    three fifths and three halves for business, three tenths and twice for
    first, rounded down. *)
Definition adjusted (cabin_class : string) (max_pax base_co2 : Z) : Z * Z :=
  if (cabin_class =? "business")%string then (max_pax * 6 / 10, base_co2 * 3 / 2)
  else if (cabin_class =? "first")%string then (max_pax * 3 / 10, base_co2 * 2)
  else (max_pax, base_co2).

(** A record that some call of [generate_flight_record] returned. *)
Definition generated (self : config) (r : FlightRecord) : Prop :=
  exists id route w, fst (generate_flight_record self id route w) = Ok r.

(** The world after the two first prints, the opening and the header. *)
Definition after_header (self : config) (w : world) : world :=
  set_disk (Some header_only)
    (set_stdout (stdout w ++ [MsgGenerating (total_records self)]
                          ++ [MsgDateRange (start_date self) (end_date self)]) w).

(** The messages of a run that completes. *)
Definition success_messages (self : config) (lines : nat) : list message :=
  [MsgGenerating (total_records self);
   MsgDateRange (start_date self) (end_date self);
   MsgSuccess (total_records self);
   MsgSavedTo (output_file self);
   MsgFileSize lines].

Definition is_digit (c : ascii) : bool :=
  (48 <=? nat_of_ascii c)%nat && (nat_of_ascii c <=? 57)%nat.

(** [{n:04d}] is four digits. *)
Definition four_digits (s : string) : bool :=
  match s with
  | String a (String b (String c (String d EmptyString))) =>
      is_digit a && is_digit b && is_digit c && is_digit d
  | _ => false
  end.

(** The end date is a day before the start date. *)
Definition inverted_range (self : config) : Prop :=
  valid_ymd (start_date self) = true
  /\ valid_ymd (end_date self) = true
  /\ ymd_lt (end_date self) (start_date self).

(** The start date is a day not after the end date. *)
Definition date_range_ok (self : config) : Prop :=
  valid_ymd (start_date self) = true
  /\ valid_ymd (end_date self) = true
  /\ ymd_le (start_date self) (end_date self).

(** [CONFIG['total_records'] = n]. *)
Definition set_total_records (n : Z) (self : config) : config :=
  mkConfig (output_file self) n (batch_size self) (start_date self) (end_date self).





Definition inverted_config : config :=
  {| output_file := "data/flight_records.csv";
     total_records := 5;
     batch_size := 2;
     start_date := mkYmd 2024 12 31;
     end_date := mkYmd 2024 1 1 |}.

Definition single_day_config : config :=
  {| output_file := "data/flight_records.csv";
     total_records := 5;
     batch_size := 2;
     start_date := mkYmd 2024 1 1;
     end_date := mkYmd 2024 1 1 |}.

(** The record that [generate_flight_record] returns for [small_config 3],
    record 1 on route 42, in [example_world]. *)
Definition example_record : FlightRecord :=
  Eval vm_compute in
    match fst (generate_flight_record (small_config 3) 1 42 example_world) with
    | Ok r => r
    | Raised _ => mkFlightRecord 0 0 (mkYmd 0 0 0) "" "" 0 "" "" 0 0 0
    end.

(** A world whose file already holds a row. *)
Definition used_world : world :=
  set_disk (Some [Header fieldnames; Row example_record; Row example_record])
    example_world.

(** ** Definitions used by the further properties *)

(** A configured date whose text names no day, as 2024-02-30. *)
Definition no_such_day (self : config) : Prop :=
  valid_ymd (start_date self) = false \/ valid_ymd (end_date self) = false.

Definition leap_day_config : config :=
  {| output_file := "data/flight_records.csv";
     total_records := 4;
     batch_size := 2;
     start_date := mkYmd 2023 2 1;
     end_date := mkYmd 2023 2 29 |}.

Definition zero_batch_config : config :=
  {| output_file := "data/flight_records.csv";
     total_records := 4;
     batch_size := 0;
     start_date := mkYmd 2024 1 1;
     end_date := mkYmd 2024 12 31 |}.

Definition int_1 : PrimInt63.int := Eval vm_compute in Uint63.of_Z 1.
Definition int_27 : PrimInt63.int := Eval vm_compute in Uint63.of_Z 27.
Definition int_10000 : PrimInt63.int := Eval vm_compute in Uint63.of_Z 10000.

(** [int(x)] for a double [1 <= x < 2^53], on machine integers. *)
Definition trunc_fast (x : float) : option PrimInt63.int :=
  let (r, se) := frshiftexp x in
  let n := normfr_mantissa r in
  if negb (is_nan x) && negb (is_zero x) && negb (is_infinity x) && negb (get_sign x)
     && Uint63.leb int_2p52 n && Uint63.ltb n int_2p53
     && Uint63.leb int_2102 se && Uint63.leb se int_2154
  then Some (Uint63.lsr n (Uint63.sub int_2154 se))
  else None.

(** Line 80 against the exact product: [int(m * (k/100/100))] is
    [m * k // 10000] or one less, and at least 27. *)
Definition near_exact (v m k : PrimInt63.int) : bool :=
  let e := Uint63.div (Uint63.mul m k) int_10000 in
  (Uint63.eqb v e || Uint63.eqb (Uint63.add v int_1) e) && Uint63.leb int_27 v.

Definition passengers_exact_check (k : Z) : bool :=
  let y := (hundredths_to_float k / 100)%float in
  let k63 := Uint63.of_Z k in
  forallb (fun m =>
             match trunc_fast (float_of_Z m * y)%float with
             | Some v => near_exact v (Uint63.of_Z m) k63
             | None => false
             end) (zrange 45 356).

Definition digit_value (c : ascii) : Z := Z.of_nat (nat_of_ascii c) - 48.

(** The number of hundredths that a text of the form [dd.dd] denotes. *)
Definition read_2f (s : string) : option Z :=
  match s with
  | String a (String b (String p (String c (String d EmptyString)))) =>
      if is_digit a && is_digit b && (p =? ".")%char && is_digit c && is_digit d
      then Some (1000 * digit_value a + 100 * digit_value b
                 + 10 * digit_value c + digit_value d)
      else None
  | _ => None
  end.

(** A world whose draws give a wide-body aircraft in economy with capacity
    400 and load factor 62.75, and the record generated there. *)
Definition rounding_world : world :=
  {| entropy := fun n => nth n [0; 0; 0; 9; 0; 150; 0; 275] 0;
     cursor := 0;
     wall_clock := fun n => 1700000000 + Z.of_nat n;
     clock_reads := 0;
     disk := None;
     flushes := 0;
     stdout := [] |}.

Definition rounding_record : FlightRecord :=
  Eval vm_compute in
    match fst (generate_flight_record (small_config 3) 1 42 rounding_world) with
    | Ok r => r
    | Raised _ => mkFlightRecord 0 0 (mkYmd 0 0 0) "" "" 0 "" "" 0 0 0
    end.

(** * Properties *)

(** ** Running the monad *)

Lemma bind_Ok {A B : Type} (c : M A) (k : A -> M B) (w w1 : world) (a : A) :
  c w = (Ok a, w1) -> bind c k w = k a w1.
Proof. intros H. unfold bind. rewrite H. reflexivity. Qed.

Lemma bind_Raised {A B : Type} (c : M A) (k : A -> M B) (w w1 : world) (e : exn) :
  c w = (Raised e, w1) -> bind c k w = (Raised e, w1).
Proof. intros H. unfold bind. rewrite H. reflexivity. Qed.

(** ** The random draws *)

Lemma mod_range (x n : Z) : 0 < n -> 0 <= x mod n < n.
Proof. intros H. apply Z.mod_pos_bound. exact H. Qed.

Lemma randint_Ok (a b : Z) (w : world) :
  a <= b ->
  randint a b w
  = (Ok (a + entropy w (cursor w) mod (b + 1 - a)), set_cursor (S (cursor w)) w).
Proof.
  intros H. unfold randint.
  destruct (Z.ltb_spec 0 (b + 1 - a)) as [_ | Hn]; [reflexivity | lia].
Qed.

Lemma randint_empty (a b : Z) (w : world) :
  b < a -> randint a b w = (Raised ValueError, w).
Proof.
  intros H. unfold randint.
  destruct (Z.ltb_spec 0 (b + 1 - a)) as [Hp | _]; [lia | reflexivity].
Qed.

(** Over one period of the raw draw, [randint a b] takes every value of
    [a, b] once: raw draw [v - a] gives [v], and no other raw draw below the
    width does. *)
Lemma randint_uniform (a b v r : Z) :
  a <= v <= b -> 0 <= r < b + 1 - a ->
  (a + r mod (b + 1 - a) = v <-> r = v - a).
Proof.
  intros Hv Hr. rewrite Z.mod_small by lia. lia.
Qed.

Lemma choice_Ok (l : list string) (w : world) :
  choice l w
  = (Ok (nth (Z.to_nat (entropy w (cursor w) mod Z.of_nat (List.length l))) l ""),
     set_cursor (S (cursor w)) w).
Proof. reflexivity. Qed.

Lemma choice_In (l : list string) (x : Z) :
  l <> [] -> In (nth (Z.to_nat (x mod Z.of_nat (List.length l))) l "") l.
Proof.
  intros Hl. apply nth_In.
  assert (0 < Z.of_nat (List.length l)) by (destruct l; [congruence | simpl; lia]).
  pose proof (mod_range x (Z.of_nat (List.length l))). lia.
Qed.

(** ** Ranges *)

Lemma zrange_In (n : nat) (lo z : Z) :
  lo <= z < lo + Z.of_nat n -> In z (zrange lo n).
Proof.
  revert lo. induction n as [| n IH]; intros lo H; [lia |].
  cbn [zrange]. destruct (Z.eq_dec lo z) as [E | E]; [left; exact E | right].
  apply IH. lia.
Qed.

Lemma zrange_forallb (f : Z -> bool) (lo : Z) (n : nat) :
  forallb f (zrange lo n) = true -> forall z, lo <= z < lo + Z.of_nat n -> f z = true.
Proof.
  intros H z Hz. rewrite forallb_forall in H. apply H. apply zrange_In. exact Hz.
Qed.

Lemma zrange_length (n : nat) (lo : Z) : List.length (zrange lo n) = n.
Proof. revert lo. induction n as [| n IH]; intros lo; cbn; [| rewrite IH]; reflexivity. Qed.

Lemma zrange_lower (n : nat) (lo : Z) : Forall (fun z => lo <= z) (zrange lo n).
Proof.
  revert lo. induction n as [| n IH]; intros lo; cbn [zrange]; constructor; [lia |].
  eapply Forall_impl; [| apply (IH (lo + 1))]. cbv beta. intros z Hz. lia.
Qed.

Lemma zrange_sorted (n : nat) (lo : Z) : StronglySorted Z.lt (zrange lo n).
Proof.
  revert lo. induction n as [| n IH]; intros lo; cbn [zrange]; constructor; [apply IH |].
  eapply Forall_impl; [| apply (zrange_lower n (lo + 1))]. cbv beta. intros z Hz. lia.
Qed.

Lemma zrange_nth (n : nat) (lo : Z) (j : nat) :
  (j < n)%nat -> nth j (zrange lo n) 0 = lo + Z.of_nat j.
Proof.
  revert lo j. induction n as [| n IH]; intros lo j Hj; [lia |].
  destruct j as [| j]; cbn [zrange nth]; [lia |]. rewrite IH by lia. lia.
Qed.

(** ** The calendar *)

Lemma year_decomp (a b c e : Z) :
  0 <= a -> 0 <= b <= 3 -> 0 <= c <= 24 -> 0 <= e <= 3 ->
  let y := a * 400 + 1 + b * 100 + c * 4 + e in
  is_leap y = ((e =? 3) && (negb (c =? 24) || (b =? 3)))
  /\ days_before_year y = 146097 * a + 36524 * b + 1461 * c + 365 * e.
Proof.
  intros Ha Hb Hc He y. subst y. unfold is_leap, days_before_year. split.
  - destruct (Z.eqb_spec e 3), (Z.eqb_spec c 24), (Z.eqb_spec b 3);
    repeat match goal with |- context [Z.eqb ?x ?y] => destruct (Z.eqb_spec x y) end;
    simpl; try reflexivity; exfalso; Z.div_mod_to_equations; lia.
  - Z.div_mod_to_equations. lia.
Qed.

Lemma month_and_day_all (leapyear : bool) :
  forallb (month_and_day_ok leapyear) (zrange 0 365) = true.
Proof. destruct leapyear; vm_compute; reflexivity. Qed.

Lemma month_and_day_spec (leapyear : bool) (n : Z) :
  0 <= n < 365 ->
  let md := month_and_day leapyear n in
  1 <= fst md <= 12
  /\ 1 <= snd md <= (if (fst md =? 2) && leapyear then 29
                     else nth (Z.to_nat (fst md)) DAYS_IN_MONTH 0)
  /\ nth (Z.to_nat (fst md)) DAYS_BEFORE_MONTH 0
     + (if (2 <? fst md) && leapyear then 1 else 0) + snd md = n + 1.
Proof.
  intros Hn md.
  pose proof (zrange_forallb _ 0 365 (month_and_day_all leapyear) n ltac:(lia)) as H.
  unfold month_and_day_ok in H. fold md in H.
  repeat rewrite andb_true_iff in H.
  destruct H as [[[[H1 H2] H3] H4] H5].
  apply Z.leb_le in H1, H2, H3, H4. apply Z.eqb_eq in H5. lia.
Qed.

Ltac december :=
  change (nth (Z.to_nat 12) DAYS_BEFORE_MONTH 0) with 334;
  change (nth (Z.to_nat 12) DAYS_IN_MONTH 0) with 31;
  change (2 <? 12) with true; change (12 =? 2) with false; change (3 =? 3) with true;
  change (24 =? 24) with true;
  cbn [andb orb negb].

Lemma ord2ymd_spec (n : Z) :
  1 <= n ->
  let d := ord2ymd n in
  ymd2ord d = n
  /\ 1 <= year d
  /\ (n <= MAXORDINAL -> year d <= MAXYEAR)
  /\ 1 <= month d <= 12
  /\ 1 <= day d <= days_in_month (year d) (month d).
Proof.
  intros Hn. unfold ord2ymd, DI400Y, DI100Y, DI4Y, MAXORDINAL, MAXYEAR. cbv zeta.
  set (n0 := n - 1).
  set (a := n0 / 146097). set (r1 := n0 mod 146097).
  set (b := r1 / 36524). set (r2 := r1 mod 36524).
  set (c := r2 / 1461). set (r3 := r2 mod 1461).
  set (e := r3 / 365). set (r4 := r3 mod 365).
  assert (Hdec : n0 = 146097 * a + 36524 * b + 1461 * c + 365 * e + r4
                 /\ 0 <= a /\ 0 <= b <= 4 /\ 0 <= c <= 24 /\ 0 <= e <= 4 /\ 0 <= r4 < 365
                 /\ (b = 4 -> c = 0 /\ e = 0 /\ r4 = 0)
                 /\ (e = 4 -> r4 = 0 /\ c <= 23)).
  { subst a r1 b r2 c r3 e r4. Z.div_mod_to_equations. lia. }
  clearbody a b c e r4. clear r1 r2 r3.
  destruct Hdec as (Hn0 & Ha & Hb & Hc & He & Hr & Hb4 & He4).
  unfold ymd2ord, days_in_month, days_before_month.
  destruct (Z.eqb_spec e 4) as [E4 | E4]; [| destruct (Z.eqb_spec b 4) as [B4 | B4]];
    simpl orb; cbv iota; cbn [year month day].
  - (* the last day of a leap year that ends a four-year cycle *)
    destruct (He4 E4) as [R4 C23].
    destruct (year_decomp a b c 3 Ha ltac:(lia) ltac:(lia) ltac:(lia)) as [HL HD].
    replace (a * 400 + 1 + b * 100 + c * 4 + e - 1)
      with (a * 400 + 1 + b * 100 + c * 4 + 3) by lia.
    rewrite HL, HD.
    replace (c =? 24) with false by (symmetry; apply Z.eqb_neq; lia).
    december. lia.
  - (* the last day of a 400-year cycle *)
    destruct (Hb4 B4) as (C0 & E0 & R0).
    destruct (year_decomp a 3 24 3 Ha ltac:(lia) ltac:(lia) ltac:(lia)) as [HL HD].
    replace (a * 400 + 1 + b * 100 + c * 4 + e - 1)
      with (a * 400 + 1 + 3 * 100 + 24 * 4 + 3) by lia.
    rewrite HL, HD. december. lia.
  - destruct (year_decomp a b c e Ha ltac:(lia) ltac:(lia) ltac:(lia)) as [HL HD].
    rewrite HL, HD.
    set (leapyear := (e =? 3) && (negb (c =? 24) || (b =? 3))).
    destruct (month_and_day_spec leapyear r4 Hr) as (Hm & Hd & Hsum).
    repeat split; try lia.
Qed.

Lemma ymd2ord_ord2ymd_valid (n : Z) :
  1 <= n <= MAXORDINAL -> valid_ymd (ord2ymd n) = true /\ ymd2ord (ord2ymd n) = n.
Proof.
  intros Hn. destruct (ord2ymd_spec n ltac:(lia)) as (H1 & H2 & H3 & H4 & H5).
  split; [| exact H1].
  unfold valid_ymd, MINYEAR. repeat rewrite andb_true_iff.
  repeat split; apply Z.leb_le; lia.
Qed.

Ltac month_cases m :=
  let H := fresh in
  assert (H : m = 1 \/ m = 2 \/ m = 3 \/ m = 4 \/ m = 5 \/ m = 6
              \/ m = 7 \/ m = 8 \/ m = 9 \/ m = 10 \/ m = 11 \/ m = 12) by lia;
  repeat (destruct H as [H | H]; [subst m |]); [.. | subst m].

Lemma days_before_month_step (y m : Z) :
  1 <= m <= 12 ->
  0 <= days_before_month y m
  /\ 28 <= days_in_month y m
  /\ days_before_month y m + days_in_month y m
     = (if m =? 12 then (if is_leap y then 366 else 365) else days_before_month y (m + 1)).
Proof.
  intros Hm. unfold days_before_month, days_in_month.
  destruct (is_leap y); month_cases m; simpl; lia.
Qed.

Lemma days_before_month_mono (y m1 m2 : Z) :
  1 <= m1 -> m1 < m2 -> m2 <= 12 ->
  days_before_month y m1 + days_in_month y m1 <= days_before_month y m2.
Proof.
  intros H1 H12 H2. unfold days_before_month, days_in_month.
  destruct (is_leap y); month_cases m1; month_cases m2; simpl; lia.
Qed.

Lemma days_before_year_succ (y : Z) :
  days_before_year (y + 1) = days_before_year y + (if is_leap y then 366 else 365).
Proof.
  unfold days_before_year, is_leap. cbv zeta.
  repeat match goal with |- context [Z.eqb ?x ?y] => destruct (Z.eqb_spec x y) end;
    cbn [andb orb negb]; Z.div_mod_to_equations; lia.
Qed.

Lemma days_before_year_mono (y1 y2 : Z) :
  y1 <= y2 -> days_before_year y1 <= days_before_year y2.
Proof.
  intros H. unfold days_before_year. cbv zeta. Z.div_mod_to_equations. lia.
Qed.

Lemma day_of_year_bound (d : ymd) :
  1 <= month d <= 12 -> 1 <= day d <= days_in_month (year d) (month d) ->
  days_before_year (year d) < ymd2ord d <= days_before_year (year d + 1).
Proof.
  intros Hm Hd. rewrite days_before_year_succ. unfold ymd2ord.
  destruct (days_before_month_step (year d) (month d) Hm) as (H0 & _ & Hs).
  destruct (Z.eqb_spec (month d) 12) as [E | E].
  - lia.
  - destruct (days_before_month_step (year d) 12 ltac:(lia)) as (_ & _ & H12).
    change (12 =? 12) with true in H12. cbv iota in H12.
    pose proof (days_before_month_mono (year d) (month d) 12 ltac:(lia) ltac:(lia) ltac:(lia)).
    destruct (days_before_month_step (year d) 12 ltac:(lia)) as (_ & H28 & _).
    lia.
Qed.

Lemma valid_ymd_fields (d : ymd) :
  valid_ymd d = true ->
  1 <= year d <= 9999 /\ 1 <= month d <= 12
  /\ 1 <= day d <= days_in_month (year d) (month d).
Proof.
  unfold valid_ymd, MINYEAR, MAXYEAR. repeat rewrite andb_true_iff.
  intros [[[[[H1 H2] H3] H4] H5] H6].
  apply Z.leb_le in H1, H2, H3, H4, H5, H6. lia.
Qed.

Lemma ymd2ord_lt (a b : ymd) :
  valid_ymd a = true -> valid_ymd b = true -> ymd_lt a b -> ymd2ord a < ymd2ord b.
Proof.
  intros Va Vb H.
  destruct (valid_ymd_fields a Va) as (Hya & Hma & Hda).
  destruct (valid_ymd_fields b Vb) as (Hyb & Hmb & Hdb).
  pose proof (day_of_year_bound a Hma Hda) as Ba.
  pose proof (day_of_year_bound b Hmb Hdb) as Bb.
  destruct H as [Hy | [Hy [Hm | [Hm Hd]]]].
  - pose proof (days_before_year_mono (year a + 1) (year b) ltac:(lia)). lia.
  - unfold ymd2ord. rewrite Hy in *.
    pose proof (days_before_month_mono (year b) (month a) (month b)
                  ltac:(lia) Hm ltac:(lia)).
    lia.
  - unfold ymd2ord. rewrite Hy, Hm. lia.
Qed.

Lemma ymd_trichotomy (a b : ymd) : ymd_lt a b \/ a = b \/ ymd_lt b a.
Proof.
  destruct a as [ya ma da], b as [yb mb db]. unfold ymd_lt. cbn.
  destruct (Z.lt_total ya yb) as [H | [H | H]]; [lia | | lia].
  destruct (Z.lt_total ma mb) as [H' | [H' | H']]; [lia | | lia].
  destruct (Z.lt_total da db) as [H'' | [H'' | H'']]; [lia | | lia].
  right. left. congruence.
Qed.

(** On days that exist, the order of the calendar is the order of the
    ordinals. *)
Lemma ymd_le_ordinal (a b : ymd) :
  valid_ymd a = true -> valid_ymd b = true ->
  (ymd_le a b <-> ymd2ord a <= ymd2ord b).
Proof.
  intros Va Vb. split.
  - intros [H | H]; [apply Z.lt_le_incl, ymd2ord_lt; assumption | subst; lia].
  - intros H. destruct (ymd_trichotomy a b) as [L | [E | G]].
    + left. exact L.
    + right. exact E.
    + pose proof (ymd2ord_lt b a Vb Va G). lia.
Qed.

Lemma ymd2ord_inj (a b : ymd) :
  valid_ymd a = true -> valid_ymd b = true -> ymd2ord a = ymd2ord b -> a = b.
Proof.
  intros Va Vb H. destruct (ymd_trichotomy a b) as [L | [E | G]].
  - pose proof (ymd2ord_lt a b Va Vb L). lia.
  - exact E.
  - pose proof (ymd2ord_lt b a Vb Va G). lia.
Qed.

Lemma ymd2ord_range (d : ymd) : valid_ymd d = true -> 1 <= ymd2ord d <= MAXORDINAL.
Proof.
  intros V. destruct (valid_ymd_fields d V) as (Hy & Hm & Hd).
  pose proof (day_of_year_bound d Hm Hd) as B.
  pose proof (days_before_year_mono 1 (year d) ltac:(lia)) as L.
  pose proof (days_before_year_mono (year d + 1) 10000 ltac:(lia)) as U.
  change (days_before_year 1) with 0 in L.
  change (days_before_year 10000) with 3652059 in U.
  unfold MAXORDINAL. lia.
Qed.

Lemma ord2ymd_ymd2ord (d : ymd) : valid_ymd d = true -> ord2ymd (ymd2ord d) = d.
Proof.
  intros V. pose proof (ymd2ord_range d V) as R.
  destruct (ymd2ord_ord2ymd_valid (ymd2ord d) R) as [V' E].
  apply ymd2ord_inj; assumption.
Qed.

(** ** Truncation of doubles *)

Lemma digits2_pos_bounds (p : positive) :
  2 ^ (Zpos (digits2_pos p) - 1) <= Zpos p < 2 ^ Zpos (digits2_pos p).
Proof.
  induction p as [p IH | p IH |]; cbn [digits2_pos].
  - rewrite Pos2Z.inj_succ.
    replace (Z.succ (Zpos (digits2_pos p)) - 1) with (Z.succ (Zpos (digits2_pos p) - 1)) by lia.
    rewrite !Z.pow_succ_r by lia. lia.
  - rewrite Pos2Z.inj_succ.
    replace (Z.succ (Zpos (digits2_pos p)) - 1) with (Z.succ (Zpos (digits2_pos p) - 1)) by lia.
    rewrite !Z.pow_succ_r by lia. lia.
  - cbn. lia.
Qed.

Lemma digits2_pos_53 (p : positive) :
  2 ^ 52 <= Zpos p < 2 ^ 53 -> Zpos (digits2_pos p) = 53.
Proof.
  intros [Hlo Hhi]. destruct (digits2_pos_bounds p) as [Dlo Dhi].
  assert (H1 : Zpos (digits2_pos p) - 1 < 53).
  { apply (Z.pow_lt_mono_r_iff 2); lia. }
  assert (H2 : 52 < Zpos (digits2_pos p)).
  { apply (Z.pow_lt_mono_r_iff 2); lia. }
  lia.
Qed.

Lemma trunc_le_fast_sound (x : float) (m : Z) :
  0 <= m < 2 ^ 62 -> trunc_le_fast x m = true ->
  exists p, trunc_float x = inr p /\ 0 <= p <= m.
Proof.
  intros Hm H. unfold trunc_le_fast in H.
  destruct (frshiftexp x) as [r se] eqn:Efr.
  repeat rewrite andb_true_iff in H.
  destruct H as [[[[Hnan Hzero] Hinf] Hsign] [[[[Hn1 Hn2] He1] He2] Hle]].
  apply negb_true_iff in Hnan, Hzero, Hinf, Hsign.
  apply Uint63.leb_spec in Hn1, He1, He2, Hle. apply Uint63.ltb_spec in Hn2.
  rewrite Uint63.lsr_spec, Uint63.sub_spec in Hle.
  rewrite Uint63.of_Z_spec in Hle.
  change (Uint63.to_Z int_2p52) with (2 ^ 52) in Hn1.
  change (Uint63.to_Z int_2p53) with (2 ^ 53) in Hn2.
  change (Uint63.to_Z int_2102) with 2102 in He1.
  change (Uint63.to_Z int_2154) with 2154 in He2, Hle.
  change Uint63.wB with (2 ^ 63) in Hle.
  set (N := Uint63.to_Z (normfr_mantissa r)) in *.
  set (E := Uint63.to_Z se) in *.
  rewrite (Z.mod_small (2154 - E)) in Hle by lia.
  rewrite (Z.mod_small m) in Hle by lia.
  unfold trunc_float, Prim2SF. rewrite Hnan, Hzero, Hinf, Hsign.
  unfold Z.frexp. rewrite Efr. fold N. fold E.
  unfold shr_fexp.
  destruct N as [| p | p] eqn:EN; [lia | | lia].
  unfold Zdigits2. rewrite (digits2_pos_53 p) by lia.
  unfold fexp, SpecFloat.emin, emax, prec, shift.
  replace (Z.max (53 + (E - 2101 - 53) - 53) (3 - 1024 - 53)) with (E - 2101 - 53) by lia.
  rewrite Z.sub_diag. cbn [shr shr_record_of_loc shr_m].
  destruct (E - 2101 - 53) as [| q | q] eqn:EE.
  - exists (Z.pos p). split; [reflexivity |].
    replace (2154 - E) with 0 in Hle by lia. rewrite Z.pow_0_r, Z.div_1_r in Hle. lia.
  - lia.
  - exists (Z.shiftr (Z.pos p) (Z.pos q)). split; [reflexivity |].
    rewrite Z.shiftr_div_pow2 by lia.
    replace (2154 - E) with (Z.pos q) in Hle by lia.
    split; [| exact Hle].
    apply Z.div_pos; [lia | apply Z.pow_pos_nonneg; lia].
Qed.


Lemma int_of_float_is (x : float) (v : Z) :
  trunc_is x v = true -> int_of_float x = ret v.
Proof.
  unfold trunc_is, int_of_float. destruct (trunc_float x) as [e | n]; [discriminate |].
  intros H. apply Z.eqb_eq in H. subst n. reflexivity.
Qed.

(** Lines 72-76 on the values the body draws can take: the products are
    the exact ones, rounded down. *)
Lemma business_max_pax (m : Z) :
  150 <= m <= 400 -> int_of_float (float_of_Z m * 0.6)%float = ret (m * 6 / 10).
Proof.
  intros H. apply int_of_float_is.
  assert (A : forallb (fun m => trunc_is (float_of_Z m * 0.6)%float (m * 6 / 10))
                (zrange 150 251) = true) by (vm_compute; reflexivity).
  apply (zrange_forallb _ _ _ A). lia.
Qed.

Lemma first_max_pax (m : Z) :
  150 <= m <= 400 -> int_of_float (float_of_Z m * 0.3)%float = ret (m * 3 / 10).
Proof.
  intros H. apply int_of_float_is.
  assert (A : forallb (fun m => trunc_is (float_of_Z m * 0.3)%float (m * 3 / 10))
                (zrange 150 251) = true) by (vm_compute; reflexivity).
  apply (zrange_forallb _ _ _ A). lia.
Qed.

Lemma business_base_co2 (b : Z) :
  80 <= b <= 250 -> int_of_float (float_of_Z b * 1.5)%float = ret (b * 3 / 2).
Proof.
  intros H. apply int_of_float_is.
  assert (A : forallb (fun b => trunc_is (float_of_Z b * 1.5)%float (b * 3 / 2))
                (zrange 80 171) = true) by (vm_compute; reflexivity).
  apply (zrange_forallb _ _ _ A). lia.
Qed.

Lemma first_base_co2 (b : Z) :
  80 <= b <= 250 -> int_of_float (float_of_Z b * 2.0)%float = ret (b * 2).
Proof.
  intros H. apply int_of_float_is.
  assert (A : forallb (fun b => trunc_is (float_of_Z b * 2.0)%float (b * 2))
                (zrange 80 171) = true) by (vm_compute; reflexivity).
  apply (zrange_forallb _ _ _ A). lia.
Qed.

Lemma passengers_check_all : forallb passengers_check (zrange 6000 3501) = true.
Proof. vm_compute. reflexivity. Qed.

(** Line 80: the passenger count exists and is between 0 and the capacity. *)
Lemma passengers_bound (m k : Z) :
  45 <= m <= 400 -> 6000 <= k <= 9500 ->
  exists p,
    int_of_float (float_of_Z m * (hundredths_to_float k / 100))%float = ret p
    /\ 0 <= p <= m.
Proof.
  intros Hm Hk.
  pose proof (zrange_forallb _ _ _ passengers_check_all k ltac:(lia)) as A.
  unfold passengers_check in A.
  pose proof (zrange_forallb _ _ _ A m ltac:(lia)) as B. cbv beta in B.
  destruct (trunc_le_fast_sound _ m ltac:(lia) B) as (p & Hp & Hr).
  exists p. split; [| exact Hr].
  unfold int_of_float. rewrite Hp. reflexivity.
Qed.

(** ** [generate_flight_record] *)

Lemma strptime_Ok (d : ymd) (w : world) :
  valid_ymd d = true -> strptime d w = (Ok (ymd2ord d), w).
Proof. intros H. unfold strptime. rewrite H. reflexivity. Qed.

Lemma strptime_invalid (d : ymd) (w : world) :
  valid_ymd d = false -> strptime d w = (Raised ValueError, w).
Proof. intros H. unfold strptime. rewrite H. reflexivity. Qed.

Lemma add_days_Ok (dt n : Z) (w : world) :
  1 <= dt + n <= MAXORDINAL -> add_days dt n w = (Ok (dt + n), w).
Proof.
  intros H. unfold add_days. cbv zeta.
  destruct (Z.leb_spec 1 (dt + n)); [| lia].
  destruct (Z.leb_spec (dt + n) MAXORDINAL); [reflexivity | lia].
Qed.

Lemma draw_body_Ok (t : string) (w : world) :
  draw_body t w
  = (Ok (if is_narrow_body t
         then (150 + raw w 0 mod 71, 80 + raw w 1 mod 41)
         else (250 + raw w 0 mod 151, 150 + raw w 1 mod 101)),
     set_cursor (2 + cursor w) w).
Proof. unfold draw_body, raw. destruct (is_narrow_body t); reflexivity. Qed.

Lemma drawn_body_range (w : world) :
  (if is_narrow_body (drawn_aircraft w)
   then 150 <= fst (drawn_body w) <= 220 /\ 80 <= snd (drawn_body w) <= 120
   else 250 <= fst (drawn_body w) <= 400 /\ 150 <= snd (drawn_body w) <= 250).
Proof.
  unfold drawn_body.
  pose proof (mod_range (raw w 5) 71). pose proof (mod_range (raw w 6) 41).
  pose proof (mod_range (raw w 5) 151). pose proof (mod_range (raw w 6) 101).
  destruct (is_narrow_body (drawn_aircraft w)); cbn [fst snd]; lia.
Qed.

Lemma drawn_body_bounds (w : world) :
  150 <= fst (drawn_body w) <= 400 /\ 80 <= snd (drawn_body w) <= 250.
Proof.
  pose proof (drawn_body_range w) as H.
  destruct (is_narrow_body (drawn_aircraft w)); lia.
Qed.

Lemma adjust_for_cabin_Ok (c : string) (m b : Z) (w : world) :
  150 <= m <= 400 -> 80 <= b <= 250 ->
  adjust_for_cabin c m b w = (Ok (adjusted c m b), w).
Proof.
  intros Hm Hb. unfold adjust_for_cabin, adjusted.
  destruct (c =? "business")%string.
  - rewrite (business_max_pax m Hm), (business_base_co2 b Hb). reflexivity.
  - destruct (c =? "first")%string.
    + rewrite (first_max_pax m Hm), (first_base_co2 b Hb). reflexivity.
    + reflexivity.
Qed.

Lemma adjusted_range (c : string) (m b : Z) :
  150 <= m <= 400 -> 80 <= b <= 250 ->
  45 <= fst (adjusted c m b) <= 400 /\ 80 <= snd (adjusted c m b) <= 500.
Proof.
  intros Hm Hb. unfold adjusted.
  destruct (c =? "business")%string; [| destruct (c =? "first")%string];
    cbn [fst snd]; Z.div_mod_to_equations; lia.
Qed.

(** One statement of a [do] block: run [c], which returns [a] and leaves
    the world [w1], then go on. *)
Ltac step a w1 prf :=
  lazymatch goal with
  | |- bind ?c ?k ?w0 = _ =>
      let H := fresh "Hstep" in
      assert (H : c w0 = (Ok a, w1)) by prf;
      rewrite (bind_Ok c k w0 w1 a H); clear H; cbv beta zeta
  end.

(** With a date range that is a range, [generate_flight_record] returns: it
    consumes eight raw draws and one clock reading, and the record is made of
    the drawn values. *)
Lemma generate_flight_record_run (self : config) (id route : Z) (w : world) :
  valid_ymd (start_date self) = true ->
  valid_ymd (end_date self) = true ->
  ymd2ord (start_date self) <= ymd2ord (end_date self) ->
  exists p,
    0 <= p <= fst (adjusted (cabin_class_of (drawn_rand_val w))
                     (fst (drawn_body w)) (snd (drawn_body w)))
    /\ generate_flight_record self id route w
       = (Ok {| record_id := id;
                route_id := route;
                flight_date :=
                  strftime_ymd (ymd2ord (start_date self) + drawn_offset self w);
                flight_number :=
                  substring 0 10 (drawn_airline w ++ format_04d (drawn_number w))%string;
                aircraft_type := drawn_aircraft w;
                passengers := p;
                load_factor := format_2f_hundredths (drawn_hundredths w);
                cabin_class := cabin_class_of (drawn_rand_val w);
                total_co2_kg :=
                  p * snd (adjusted (cabin_class_of (drawn_rand_val w))
                             (fst (drawn_body w)) (snd (drawn_body w)));
                co2_per_passenger_kg :=
                  snd (adjusted (cabin_class_of (drawn_rand_val w))
                         (fst (drawn_body w)) (snd (drawn_body w)));
                created_at := wall_clock w (clock_reads w) |},
          set_clock_reads (S (clock_reads w)) (set_cursor (8 + cursor w) w)).
Proof.
  intros start_valid end_valid range_ok.
  set (s := ymd2ord (start_date self)) in *.
  set (e := ymd2ord (end_date self)) in *.
  set (adj := adjusted (cabin_class_of (drawn_rand_val w))
                (fst (drawn_body w)) (snd (drawn_body w))).
  destruct (drawn_body_bounds w) as [Hb1 Hb2].
  pose proof (adjusted_range (cabin_class_of (drawn_rand_val w)) _ _ Hb1 Hb2) as Hadj.
  fold adj in Hadj. destruct Hadj as [Ha1 Ha2].
  assert (Hk : 6000 <= drawn_hundredths w <= 9500).
  { unfold drawn_hundredths. pose proof (mod_range (raw w 7) 3501). lia. }
  destruct (passengers_bound (fst adj) (drawn_hundredths w) Ha1 Hk) as (p & Hp & Hpr).
  exists p. split; [exact Hpr |].
  pose proof (ymd2ord_range _ start_valid) as Rs.
  pose proof (ymd2ord_range _ end_valid) as Re.
  fold s in Rs. fold e in Re.
  assert (range_ok' : 0 <= e - s) by lia.
  assert (Hoff : 0 <= drawn_offset self w <= e - s).
  { unfold drawn_offset. fold s e. pose proof (mod_range (raw w 0) (e - s + 1 - 0)). lia. }
  unfold generate_flight_record.
  step s w ltac:(exact (strptime_Ok _ w start_valid)).
  step e w ltac:(exact (strptime_Ok _ w end_valid)).
  step (drawn_offset self w) (set_cursor (1 + cursor w) w)
    ltac:(exact (randint_Ok 0 (e - s) w range_ok')).
  step (s + drawn_offset self w) (set_cursor (1 + cursor w) w)
    ltac:(apply add_days_Ok; lia).
  step (drawn_airline w) (set_cursor (2 + cursor w) w) ltac:(exact (choice_Ok _ _)).
  step (drawn_number w) (set_cursor (3 + cursor w) w)
    ltac:(exact (randint_Ok 100 9999 _ ltac:(lia))).
  step (drawn_aircraft w) (set_cursor (4 + cursor w) w) ltac:(exact (choice_Ok _ _)).
  step (drawn_rand_val w) (set_cursor (5 + cursor w) w)
    ltac:(exact (randint_Ok 1 100 _ ltac:(lia))).
  step (drawn_body w) (set_cursor (7 + cursor w) w) ltac:(exact (draw_body_Ok _ _)).
  step adj (set_cursor (7 + cursor w) w) ltac:(apply adjust_for_cabin_Ok; assumption).
  step (drawn_hundredths w) (set_cursor (8 + cursor w) w)
    ltac:(exact (randint_Ok 6000 9500 _ ltac:(lia))).
  step p (set_cursor (8 + cursor w) w) ltac:(rewrite Hp; reflexivity).
  reflexivity.
Qed.

(** [generate_flight_record] returns only with a date range that is a range:
    a text that is no day fails in [strptime], an end before the start in
    [randint]. *)
Lemma generate_flight_record_Ok_dates (self : config) (id route : Z) (w : world)
    (r : FlightRecord) :
  fst (generate_flight_record self id route w) = Ok r ->
  valid_ymd (start_date self) = true
  /\ valid_ymd (end_date self) = true
  /\ ymd2ord (start_date self) <= ymd2ord (end_date self).
Proof.
  unfold generate_flight_record. intros H.
  destruct (valid_ymd (start_date self)) eqn:Vs.
  2:{ rewrite (bind_Raised _ _ _ _ _ (strptime_invalid _ w Vs)) in H. discriminate H. }
  rewrite (bind_Ok _ _ _ _ _ (strptime_Ok _ w Vs)) in H.
  destruct (valid_ymd (end_date self)) eqn:Ve.
  2:{ rewrite (bind_Raised _ _ _ _ _ (strptime_invalid _ w Ve)) in H. discriminate H. }
  rewrite (bind_Ok _ _ _ _ _ (strptime_Ok _ w Ve)) in H.
  destruct (Z.le_gt_cases (ymd2ord (start_date self)) (ymd2ord (end_date self)))
    as [L | G].
  - repeat split. exact L.
  - rewrite (bind_Raised _ _ _ _ _
               (randint_empty 0 (ymd2ord (end_date self) - ymd2ord (start_date self)) w
                  ltac:(lia))) in H.
    discriminate H.
Qed.

(** An end date before the start date: the call raises [ValueError], and
    changes nothing. *)
Lemma generate_flight_record_inverted (self : config) (id route : Z) (w : world) :
  valid_ymd (start_date self) = true ->
  valid_ymd (end_date self) = true ->
  ymd2ord (end_date self) < ymd2ord (start_date self) ->
  generate_flight_record self id route w = (Raised ValueError, w).
Proof.
  intros Vs Ve G. unfold generate_flight_record.
  rewrite (bind_Ok _ _ _ _ _ (strptime_Ok _ w Vs)).
  rewrite (bind_Ok _ _ _ _ _ (strptime_Ok _ w Ve)).
  rewrite (bind_Raised _ _ _ _ _
             (randint_empty 0 (ymd2ord (end_date self) - ymd2ord (start_date self)) w
                ltac:(lia))).
  reflexivity.
Qed.

(** Whatever the configuration, [generate_flight_record] either returns a
    record, after eight raw draws and one clock reading, or raises
    [ValueError] and changes nothing. *)
Lemma generate_flight_record_cases (self : config) (id route : Z) (w : world) :
  (exists r,
     generate_flight_record self id route w
     = (Ok r, set_clock_reads (S (clock_reads w)) (set_cursor (8 + cursor w) w))
     /\ record_id r = id)
  \/ generate_flight_record self id route w = (Raised ValueError, w).
Proof.
  destruct (valid_ymd (start_date self)) eqn:Vs.
  2:{ right. unfold generate_flight_record.
      apply bind_Raised. apply strptime_invalid. exact Vs. }
  destruct (valid_ymd (end_date self)) eqn:Ve.
  2:{ right. unfold generate_flight_record.
      rewrite (bind_Ok _ _ _ _ _ (strptime_Ok _ w Vs)).
      apply bind_Raised. apply strptime_invalid. exact Ve. }
  destruct (Z.le_gt_cases (ymd2ord (start_date self)) (ymd2ord (end_date self)))
    as [L | G].
  - left. destruct (generate_flight_record_run self id route w Vs Ve L) as (p & _ & H).
    eexists. split; [exact H | reflexivity].
  - right. apply generate_flight_record_inverted; assumption.
Qed.

(** ** The loop and [generate_to_csv] *)

(** A run under a configuration that is in order: the dates are days, the
    start is not after the end, and the batch size is not zero. *)
Section CompleteRun.

Variable self : config.

Hypothesis start_valid : valid_ymd (start_date self) = true.
Hypothesis end_valid : valid_ymd (end_date self) = true.
Hypothesis range_ok : ymd2ord (start_date self) <= ymd2ord (end_date self).

(** One turn of the loop: the row is on disk even when the batch size is
    zero and the progress test then raises. *)
Lemma write_record_row (i : Z) (w : world) (ls : list csv_line) :
  disk w = Some ls ->
  exists r,
    generated self r /\ record_id r = i
    /\ disk (snd (write_record self i w)) = Some (ls ++ [Row r])
    /\ (batch_size self <> 0 -> fst (write_record self i w) = Ok tt).
Proof.
  intros Hd. unfold write_record.
  rewrite (bind_Ok _ _ _ _ _ (randint_Ok 1 10000 w ltac:(lia))).
  set (route := 1 + entropy w (cursor w) mod (10000 + 1 - 1)).
  set (w1 := set_cursor (S (cursor w)) w).
  destruct (generate_flight_record_run self i route w1 start_valid end_valid range_ok)
    as (p & _ & Hgen).
  rewrite (bind_Ok _ _ _ _ _ Hgen).
  match type of Hgen with _ = (Ok ?r, _) => exists r end.
  split; [exists i, route, w1; rewrite Hgen; reflexivity |].
  split; [reflexivity |].
  unfold bind at 1 2, append_line at 1 2.
  destruct (Z.eqb_spec (batch_size self) 0) as [E | E].
  - split; [cbn; rewrite Hd; reflexivity | contradiction].
  - destruct (i mod batch_size self =? 0);
      (split; [cbn; rewrite Hd; reflexivity | reflexivity]).
Qed.

Hypothesis batch_ok : batch_size self <> 0.

Lemma progress_Ok (i : Z) (w : world) :
  exists w',
    (if batch_size self =? 0 then raise ZeroDivisionError
     else if i mod batch_size self =? 0 then flush
     else ret tt) w = (Ok tt, w')
    /\ disk w' = disk w /\ stdout w' = stdout w.
Proof.
  destruct (Z.eqb_spec (batch_size self) 0) as [E | _]; [contradiction |].
  destruct (i mod batch_size self =? 0).
  - exists (set_flushes (S (flushes w)) w). repeat split.
  - exists w. repeat split.
Qed.

Lemma write_record_Ok (i : Z) (w : world) (ls : list csv_line) :
  disk w = Some ls ->
  exists r w',
    write_record self i w = (Ok tt, w')
    /\ generated self r /\ record_id r = i
    /\ disk w' = Some (ls ++ [Row r]) /\ stdout w' = stdout w.
Proof.
  intros Hd. unfold write_record.
  rewrite (bind_Ok _ _ _ _ _ (randint_Ok 1 10000 w ltac:(lia))).
  set (route := 1 + entropy w (cursor w) mod (10000 + 1 - 1)).
  set (w1 := set_cursor (S (cursor w)) w).
  destruct (generate_flight_record_run self i route w1 start_valid end_valid range_ok)
    as (p & _ & Hgen).
  rewrite (bind_Ok _ _ _ _ _ Hgen).
  match type of Hgen with
  | _ = (Ok ?r, ?w2) => set (rec := r) in *; set (w2' := w2) in *
  end.
  unfold bind at 1. unfold append_line at 1.
  match goal with |- context [set_disk ?d w2'] => set (w3 := set_disk d w2') end.
  destruct (progress_Ok i w3) as (w' & Hw' & Hd' & Hs').
  rewrite Hw'. exists rec, w'. split; [reflexivity |].
  split; [exists i, route, w1; rewrite Hgen; reflexivity |].
  split; [reflexivity |].
  split.
  - rewrite Hd'. subst w3 w2' w1. cbn [disk set_disk set_clock_reads set_cursor].
    rewrite Hd. reflexivity.
  - rewrite Hs'. reflexivity.
Qed.

Lemma write_records_Ok (n : nat) :
  forall (i : Z) (w : world) (ls : list csv_line),
    disk w = Some ls ->
    exists rs w',
      write_records self n i w = (Ok tt, w')
      /\ Forall (generated self) rs /\ map record_id rs = zrange i n
      /\ disk w' = Some (ls ++ map Row rs) /\ stdout w' = stdout w.
Proof.
  induction n as [| n IH]; intros i w ls Hd.
  - exists [], w. cbn [write_records map zrange]. rewrite app_nil_r.
    repeat split; [constructor | exact Hd].
  - destruct (write_record_Ok i w ls Hd) as (r & w1 & Hrun & Hgen & Hid & Hd1 & Hs1).
    destruct (IH (i + 1) w1 (ls ++ [Row r]) Hd1)
      as (rs & w2 & Hrun2 & Hall & Hids & Hd2 & Hs2).
    exists (r :: rs), w2. cbn [write_records].
    rewrite (bind_Ok _ _ _ _ _ Hrun). split; [exact Hrun2 |].
    split; [constructor; assumption |].
    split; [cbn [map zrange]; rewrite Hid, Hids; reflexivity |].
    split; [rewrite Hd2, <- app_assoc; reflexivity | congruence].
Qed.

Lemma generate_to_csv_Ok (w : world) :
  exists rs w',
    generate_to_csv self w = (Ok tt, w')
    /\ Forall (generated self) rs
    /\ map record_id rs = zrange 1 (Z.to_nat (total_records self))
    /\ disk w' = Some (Header fieldnames :: map Row rs)
    /\ stdout w' = stdout w ++ success_messages self (S (List.length rs)).
Proof.
  unfold generate_to_csv.
  do 4 (erewrite bind_Ok by reflexivity).
  match goal with |- context [bind (write_records _ _ _) _ ?w0] => set (w1 := w0) end.
  assert (Hd1 : disk w1 = Some [Header fieldnames]) by reflexivity.
  destruct (write_records_Ok (Z.to_nat (total_records self)) 1 w1 _ Hd1)
    as (rs & w2 & Hrun & Hall & Hids & Hd2 & Hs2).
  exists rs. rewrite (bind_Ok _ _ _ _ _ Hrun).
  eexists. split; [reflexivity |].
  split; [exact Hall |]. split; [exact Hids |].
  cbn [disk stdout set_stdout set_disk]. rewrite Hd2, Hs2. split; [reflexivity |].
  subst w1. cbn [disk stdout set_stdout set_disk].
  repeat rewrite <- app_assoc. cbn [app List.length]. rewrite length_map.
  reflexivity.
Qed.

End CompleteRun.

(** No record requested: the loop body never runs. *)
Lemma generate_to_csv_none (self : config) (w : world) :
  total_records self <= 0 ->
  generate_to_csv self w
  = (Ok tt,
     set_stdout (stdout w ++ success_messages self 1) (set_disk (Some header_only) w)).
Proof.
  intros H. unfold generate_to_csv.
  replace (Z.to_nat (total_records self)) with O by lia.
  unfold bind, print, open_w, append_line, getsize, write_records, ret.
  cbn [disk stdout set_stdout set_disk entropy cursor wall_clock clock_reads flushes].
  unfold set_stdout, set_disk. cbn [disk stdout entropy cursor wall_clock clock_reads flushes].
  repeat rewrite <- app_assoc. reflexivity.
Qed.

(** An end date before the start date, and at least one record requested:
    the call for record 1 raises, after the header is on disk. *)
Lemma generate_to_csv_inverted (self : config) (w : world) :
  valid_ymd (start_date self) = true ->
  valid_ymd (end_date self) = true ->
  ymd2ord (end_date self) < ymd2ord (start_date self) ->
  1 <= total_records self ->
  generate_to_csv self w
  = (Raised ValueError, set_cursor (S (cursor w)) (after_header self w)).
Proof.
  intros Vs Ve G Hn. unfold generate_to_csv.
  destruct (Z.to_nat (total_records self)) as [| n] eqn:En; [lia |].
  do 4 (erewrite bind_Ok by reflexivity).
  match goal with |- context [bind (write_records _ _ _) _ ?w0] => set (w1 := w0) end.
  assert (Hw : write_records self (S n) 1 w1 = (Raised ValueError, set_cursor (S (cursor w1)) w1)).
  { cbn [write_records]. apply bind_Raised. unfold write_record.
    rewrite (bind_Ok _ _ _ _ _ (randint_Ok 1 10000 w1 ltac:(lia))).
    apply bind_Raised. apply generate_flight_record_inverted; assumption. }
  rewrite (bind_Raised _ _ _ _ _ Hw). subst w1.
  unfold after_header, header_only, set_cursor, set_stdout, set_disk.
  cbn [disk stdout entropy cursor wall_clock clock_reads flushes app].
  repeat rewrite <- app_assoc. reflexivity.
Qed.

(** One turn of the loop: either the row of a generated record with this
    index is appended, and the turn completes unless the batch size is zero;
    or [ValueError] is raised and the file is as it was. *)
Lemma write_record_cases (self : config) (i : Z) (w : world) (ls : list csv_line) :
  disk w = Some ls ->
  (exists r,
     generated self r /\ record_id r = i
     /\ disk (snd (write_record self i w)) = Some (ls ++ [Row r])
     /\ (batch_size self <> 0 -> fst (write_record self i w) = Ok tt))
  \/ (fst (write_record self i w) = Raised ValueError
      /\ disk (snd (write_record self i w)) = Some ls).
Proof.
  intros Hd. unfold write_record.
  rewrite (bind_Ok _ _ _ _ _ (randint_Ok 1 10000 w ltac:(lia))).
  set (route := 1 + entropy w (cursor w) mod (10000 + 1 - 1)).
  set (w1 := set_cursor (S (cursor w)) w).
  destruct (generate_flight_record_cases self i route w1) as [(r & Hgen & Hid) | Hgen].
  - left. exists r. rewrite (bind_Ok _ _ _ _ _ Hgen).
    split; [exists i, route, w1; rewrite Hgen; reflexivity |].
    split; [exact Hid |].
    unfold bind at 1 2, append_line at 1 2.
    destruct (Z.eqb_spec (batch_size self) 0) as [E | E].
    + split; [cbn; rewrite Hd; reflexivity | contradiction].
    + destruct (i mod batch_size self =? 0);
        (split; [cbn; rewrite Hd; reflexivity | reflexivity]).
  - right. rewrite (bind_Raised _ _ _ _ _ Hgen). split; [reflexivity | exact Hd].
Qed.

(** The loop, whatever the configuration: the rows appended carry the first
    [k] indices, in order, and all [n] of them when the loop completes. *)
Lemma write_records_prefix (self : config) (n : nat) :
  forall (i : Z) (w : world) (ls : list csv_line),
    disk w = Some ls ->
    exists rows k,
      (k <= n)%nat
      /\ disk (snd (write_records self n i w)) = Some (ls ++ map Row rows)
      /\ Forall (generated self) rows
      /\ map record_id rows = zrange i k
      /\ (fst (write_records self n i w) = Ok tt -> k = n).
Proof.
  induction n as [| n IH]; intros i w ls Hd.
  - exists [], O. cbn [write_records map zrange]. rewrite app_nil_r.
    repeat split; [lia | exact Hd | constructor].
  - cbn [write_records]. unfold bind.
    destruct (write_record_cases self i w ls Hd) as [(r & Hg & Hid & Hdisk & _) | [Hf Hdisk]].
    + destruct (write_record self i w) as [[[] | e] w1]; cbn [fst snd] in *.
      * destruct (IH (i + 1) w1 (ls ++ [Row r]) Hdisk)
          as (rows & k & Hk & Hd2 & Hall & Hids & Hdone).
        exists (r :: rows), (S k).
        split; [lia |]. split; [rewrite Hd2, <- app_assoc; reflexivity |].
        split; [constructor; assumption |].
        split; [cbn [map zrange]; rewrite Hid, Hids; reflexivity |].
        intros Hok. rewrite (Hdone Hok). reflexivity.
      * exists [r], 1%nat.
        split; [lia |]. split; [exact Hdisk |].
        split; [constructor; [exact Hg | constructor] |].
        split; [cbn [map zrange]; rewrite Hid; reflexivity | discriminate].
    + destruct (write_record self i w) as [[[] | e] w1]; cbn [fst snd] in *;
        [discriminate Hf |].
      exists [], O. cbn [map zrange]. rewrite app_nil_r.
      repeat split; [lia | exact Hdisk | constructor | discriminate].
Qed.

(** [generate_to_csv], whatever the configuration: the file holds the
    header and the rows of the first [k] indices. *)
Lemma generate_to_csv_prefix (self : config) (w : world) :
  exists rows k,
    (k <= Z.to_nat (total_records self))%nat
    /\ disk (snd (generate_to_csv self w)) = Some (Header fieldnames :: map Row rows)
    /\ Forall (generated self) rows
    /\ map record_id rows = zrange 1 k
    /\ (fst (generate_to_csv self w) = Ok tt -> k = Z.to_nat (total_records self)).
Proof.
  unfold generate_to_csv.
  do 4 (erewrite bind_Ok by reflexivity).
  match goal with |- context [bind (write_records _ _ _) _ ?w0] => set (w1 := w0) end.
  destruct (write_records_prefix self (Z.to_nat (total_records self)) 1 w1
              [Header fieldnames] eq_refl)
    as (rows & k & Hk & Hd & Hall & Hids & Hdone).
  exists rows, k. unfold bind.
  destruct (write_records self (Z.to_nat (total_records self)) 1 w1) as [[[] | e] w2];
    cbn [fst snd] in *; repeat split; assumption.
Qed.

(** ** Flight numbers *)

Lemma format_04d_four_digits (n : Z) :
  100 <= n <= 9999 -> four_digits (format_04d n) = true.
Proof.
  intros H.
  assert (A : forallb (fun n => four_digits (format_04d n))
                (zrange 100 (Z.to_nat 9900)) = true)
    by (vm_compute; reflexivity).
  apply (zrange_forallb _ _ _ A). lia.
Qed.

Lemma is_digit_not_comma (c : ascii) : is_digit c = true -> c <> ","%char.
Proof. intros H E. subst c. discriminate H. Qed.

(** The shape of a flight number: the code, then four digits; the slice
    [[:10]] keeps all six characters. *)
Lemma flight_number_six (airline : string) (n : Z) :
  In airline airline_codes -> 100 <= n <= 9999 ->
  substring 0 10 (airline ++ format_04d n)%string = (airline ++ format_04d n)%string
  /\ String.length (airline ++ format_04d n)%string = 6%nat
  /\ ~ In ","%char (list_ascii_of_string (airline ++ format_04d n)%string).
Proof.
  intros Ha Hn. pose proof (format_04d_four_digits n Hn) as D.
  destruct (format_04d n) as [| a [| b [| c [| d [| ? ?]]]]]; try discriminate D.
  cbn [four_digits] in D. repeat rewrite andb_true_iff in D.
  destruct D as [[[Da Db] Dc] Dd].
  apply is_digit_not_comma in Da, Db, Dc, Dd.
  cbn [airline_codes In] in Ha.
  repeat (destruct Ha as [Ha | Ha]; [subst airline |]); [.. | contradiction];
    (split; [reflexivity |]; split; [reflexivity |];
     cbn; intros H; repeat (destruct H as [H | H]; [congruence |]); exact H).
Qed.

(** ** [main] *)


(** The head of the cut is empty exactly when the path holds no slash, and
    so is [dirname]. *)
Lemma cut_after_last_sep_head (p : string) :
  fst (cut_after_last_sep p) = ""
  <-> forall c, In c (list_ascii_of_string p) -> is_sep c = false.
Proof.
  induction p as [| c s IH]; cbn [cut_after_last_sep list_ascii_of_string].
  - split; [intros _ c [] | reflexivity].
  - destruct (cut_after_last_sep s) as [[| h0 h] t] eqn:E; cbn [fst] in *.
    + destruct (is_sep c) eqn:Ec; cbn [fst].
      * split; [discriminate |]. intros H.
        rewrite (H c (or_introl eq_refl)) in Ec. discriminate.
      * split; [| reflexivity]. intros _ c' [<- | Hin]; [exact Ec |].
        apply (proj1 IH eq_refl c' Hin).
    + split; [discriminate |]. intros H.
      assert (Hs : String h0 h = "")
        by (apply IH; intros c' Hin; apply H; right; exact Hin).
      discriminate.
Qed.

Lemma rstrip_sep_empty (s : string) : rstrip_sep s = "" -> all_sep s = true.
Proof.
  induction s as [| c s IH]; cbn [rstrip_sep all_sep]; [reflexivity |].
  destruct (rstrip_sep s) as [| t0 t]; [| discriminate].
  destruct (is_sep c); [intros _; apply IH; reflexivity | discriminate].
Qed.

Lemma dirname_empty_iff (p : string) :
  dirname p = "" <-> forall c, In c (list_ascii_of_string p) -> is_sep c = false.
Proof.
  rewrite <- cut_after_last_sep_head. unfold dirname.
  destruct (fst (cut_after_last_sep p)) as [| h0 h] eqn:E; cbn [String.eqb negb andb].
  - split; reflexivity.
  - destruct (all_sep (String h0 h)) eqn:Ea; cbn [negb].
    + split; discriminate.
    + split; [| discriminate]. intros H. apply rstrip_sep_empty in H. congruence.
Qed.

Example dirname_examples :
  dirname "data/flight_records.csv" = "data"
  /\ dirname "flight_records.csv" = ""
  /\ dirname "/flight_records.csv" = "/"
  /\ dirname "data//2024/flights.csv" = "data//2024"
  /\ dirname "data/" = "data" /\ basename "data/" = ""
  /\ basename "data/flight_records.csv" = "flight_records.csv".
Proof. repeat split. Qed.


Lemma makedirs_Ok (name : string) (w : world) :
  name <> "" -> makedirs name w = (Ok tt, w).
Proof. destruct name; [congruence | reflexivity]. Qed.

(** Constructing the generator: it returns the configuration when the
    destination has a directory part, and raises [FileNotFoundError], with
    the world as it was, when it has none. *)
Lemma FlightDataGeneratorCSV_Ok (cfg : config) (w : world) :
  dirname (output_file cfg) <> "" -> FlightDataGeneratorCSV cfg w = (Ok cfg, w).
Proof.
  intros H. unfold FlightDataGeneratorCSV.
  rewrite (bind_Ok _ _ _ _ _ (makedirs_Ok _ w H)). reflexivity.
Qed.



(** [main] with a directory part in the destination: what is left to run is
    the [try] statement. *)
Lemma main_with_constructed (cfg : config) (w : world) :
  dirname (output_file cfg) <> ""
  -> main_with cfg w
     = try_except
         (start_time <- now ;;
          generate_to_csv cfg ;;;
          end_time <- now ;;
          print (MsgCompleted (end_time - start_time)))
         (fun e => print (MsgError e)) w.
Proof.
  intros H. unfold main_with.
  erewrite bind_Ok by reflexivity.
  rewrite (bind_Ok _ _ _ _ _ (FlightDataGeneratorCSV_Ok cfg w H)). reflexivity.
Qed.


Lemma inverted_range_ordinals (self : config) :
  inverted_range self ->
  valid_ymd (start_date self) = true /\ valid_ymd (end_date self) = true
  /\ ymd2ord (end_date self) < ymd2ord (start_date self).
Proof.
  intros (Vs & Ve & L). repeat split; try assumption. apply ymd2ord_lt; assumption.
Qed.

Lemma date_range_ok_ordinals (self : config) :
  date_range_ok self ->
  valid_ymd (start_date self) = true /\ valid_ymd (end_date self) = true
  /\ ymd2ord (start_date self) <= ymd2ord (end_date self).
Proof.
  intros (Vs & Ve & L). repeat split; try assumption. apply ymd_le_ordinal; assumption.
Qed.



(** ** The records and the file *)

(** Every record that [generate_flight_record] returns is made of the
    values drawn in the world the call started in. *)
Lemma generated_record_shape
    (self : config) (id route : Z) (w : world) (r : FlightRecord) :
  fst (generate_flight_record self id route w) = Ok r ->
  record_id r = id
  /\ route_id r = route
  /\ flight_date r = strftime_ymd (ymd2ord (start_date self) + drawn_offset self w)
  /\ flight_number r
     = substring 0 10 (drawn_airline w ++ format_04d (drawn_number w))%string
  /\ aircraft_type r = drawn_aircraft w
  /\ cabin_class r = cabin_class_of (drawn_rand_val w)
  /\ 0 <= passengers r
       <= fst (adjusted (cabin_class r) (fst (drawn_body w)) (snd (drawn_body w)))
  /\ co2_per_passenger_kg r
     = snd (adjusted (cabin_class r) (fst (drawn_body w)) (snd (drawn_body w)))
  /\ total_co2_kg r = passengers r * co2_per_passenger_kg r
  /\ load_factor r = format_2f_hundredths (drawn_hundredths w)
  /\ created_at r = wall_clock w (clock_reads w).
Proof.
  intros H.
  destruct (generate_flight_record_Ok_dates self id route w r H) as (Vs & Ve & Hr).
  destruct (generate_flight_record_run self id route w Vs Ve Hr) as (p & Hp & Hgen).
  rewrite Hgen in H. cbn [fst] in H. injection H as <-.
  cbn [record_id route_id flight_date flight_number aircraft_type cabin_class passengers
       co2_per_passenger_kg total_co2_kg load_factor created_at].
  repeat split; try reflexivity; apply Hp.
Qed.

(** With a date range that is a range, [generate_flight_record] returns a
    record. *)
Lemma generate_flight_record_total (self : config) (id route : Z) (w : world) :
  date_range_ok self -> exists r, fst (generate_flight_record self id route w) = Ok r.
Proof.
  intros H. destruct (date_range_ok_ordinals self H) as (Vs & Ve & Hr).
  destruct (generate_flight_record_run self id route w Vs Ve Hr) as (p & _ & Hgen).
  eexists. rewrite Hgen. reflexivity.
Qed.

(** [generate_flight_record] returns a record exactly when the date range
    is a range. *)
Lemma generate_flight_record_returns_iff (self : config) (id route : Z) (w : world) :
  (exists r, fst (generate_flight_record self id route w) = Ok r) <-> date_range_ok self.
Proof.
  split; [| apply generate_flight_record_total].
  intros [r H].
  destruct (generate_flight_record_Ok_dates self id route w r H) as (Vs & Ve & Hr).
  repeat split; try assumption. apply ymd_le_ordinal; assumption.
Qed.

(** C1: every record that [generate_flight_record] returns has
    [total_co2_kg = passengers * co2_per_passenger_kg], an equation between
    integers. *)
Theorem total_co2_is_passengers_times_rate
    (self : config) (id route : Z) (w : world) (r : FlightRecord) :
  fst (generate_flight_record self id route w) = Ok r ->
  total_co2_kg r = passengers r * co2_per_passenger_kg r.
Proof.
  intros H. apply (generated_record_shape self id route w r H).
Qed.

Lemma total_co2_is_passengers_times_rate_witness :
  total_co2_kg example_record
  = passengers example_record * co2_per_passenger_kg example_record.
Proof.
  apply (total_co2_is_passengers_times_rate (small_config 3) 1 42 example_world).
  vm_compute. reflexivity.
Defined.

(** C2: in every record that [generate_flight_record] returns, the aircraft
    type is an entry of the catalog; when it carries a narrow-body marker
    (["A3"] or ["B73"]) the capacity before the cabin class applies is
    [150 + (raw draw mod 71)], in [150, 220], and the base emission
    [80 + (raw draw mod 41)], in [80, 120]; otherwise they are
    [250 + (raw draw mod 151)], in [250, 400], and [150 + (raw draw mod 101)],
    in [150, 250].  These are the values lines 63-68 draw; lines 71-76 turn
    them into the record's emission per passenger and into the capacity that
    bounds its passenger count. *)
Theorem body_type_ranges
    (self : config) (id route : Z) (w : world) (r : FlightRecord) :
  fst (generate_flight_record self id route w) = Ok r ->
  In (aircraft_type r) aircraft_types
  /\ is_narrow_body (aircraft_type r)
     = contains "A3" (aircraft_type r) || contains "B73" (aircraft_type r)
  /\ filter is_narrow_body aircraft_types
     = ["A320"; "B737"; "A321"; "B738"; "A319"; "B739";
        "A359"; "A333"; "A350"; "A332"; "A306"]
  /\ exists max_pax base_co2,
       fst (draw_body (aircraft_type r) (set_cursor (5 + cursor w) w))
       = Ok (max_pax, base_co2)
       /\ (if is_narrow_body (aircraft_type r)
           then max_pax = 150 + raw w 5 mod 71 /\ 150 <= max_pax <= 220
                /\ base_co2 = 80 + raw w 6 mod 41 /\ 80 <= base_co2 <= 120
           else max_pax = 250 + raw w 5 mod 151 /\ 250 <= max_pax <= 400
                /\ base_co2 = 150 + raw w 6 mod 101 /\ 150 <= base_co2 <= 250)
       /\ exists capacity,
            fst (adjust_for_cabin (cabin_class r) max_pax base_co2 w)
            = Ok (capacity, co2_per_passenger_kg r)
            /\ passengers r <= capacity.
Proof.
  intros H.
  destruct (generated_record_shape self id route w r H)
    as (_ & _ & _ & _ & Ht & _ & Hp & Hc & _).
  split; [rewrite Ht; apply (choice_In aircraft_types); discriminate |].
  split; [reflexivity |]. split; [reflexivity |].
  exists (fst (drawn_body w)), (snd (drawn_body w)).
  destruct (drawn_body_bounds w) as [Hb1 Hb2].
  split; [| split].
  - rewrite draw_body_Ok. cbn [fst]. rewrite Ht. unfold drawn_body.
    destruct (is_narrow_body (drawn_aircraft w)); reflexivity.
  - rewrite Ht. pose proof (drawn_body_range w) as Hr. unfold drawn_body in *.
    destruct (is_narrow_body (drawn_aircraft w)); cbn [fst snd] in *; lia.
  - exists (fst (adjusted (cabin_class r) (fst (drawn_body w)) (snd (drawn_body w)))).
    split; [| apply Hp].
    rewrite (adjust_for_cabin_Ok _ _ _ w Hb1 Hb2). cbn [fst]. rewrite Hc.
    rewrite <- surjective_pairing. reflexivity.
Qed.

Lemma body_type_ranges_witness :
  In (aircraft_type example_record) aircraft_types
  /\ is_narrow_body (aircraft_type example_record)
     = contains "A3" (aircraft_type example_record)
       || contains "B73" (aircraft_type example_record)
  /\ filter is_narrow_body aircraft_types
     = ["A320"; "B737"; "A321"; "B738"; "A319"; "B739";
        "A359"; "A333"; "A350"; "A332"; "A306"]
  /\ exists max_pax base_co2,
       fst (draw_body (aircraft_type example_record)
              (set_cursor (5 + cursor example_world) example_world))
       = Ok (max_pax, base_co2)
       /\ (if is_narrow_body (aircraft_type example_record)
           then max_pax = 150 + raw example_world 5 mod 71 /\ 150 <= max_pax <= 220
                /\ base_co2 = 80 + raw example_world 6 mod 41 /\ 80 <= base_co2 <= 120
           else max_pax = 250 + raw example_world 5 mod 151 /\ 250 <= max_pax <= 400
                /\ base_co2 = 150 + raw example_world 6 mod 101
                /\ 150 <= base_co2 <= 250)
       /\ exists capacity,
            fst (adjust_for_cabin (cabin_class example_record) max_pax base_co2
                   example_world)
            = Ok (capacity, co2_per_passenger_kg example_record)
            /\ passengers example_record <= capacity.
Proof.
  apply (body_type_ranges (small_config 3) 1 42 example_world).
  vm_compute. reflexivity.
Defined.

(** C4: in every record that [generate_flight_record] returns, [passengers]
    is at least 0 and at most the capacity [max_pax] that lines 71-76 compute
    from the capacity drawn for the aircraft type: that capacity for economy,
    [int(max_pax * 0.6)] for business, [int(max_pax * 0.3)] for first, which
    are three fifths and three tenths of it rounded down. *)
Theorem passengers_within_capacity
    (self : config) (id route : Z) (w : world) (r : FlightRecord) :
  fst (generate_flight_record self id route w) = Ok r ->
  exists max_pax base_co2 capacity,
    fst (draw_body (aircraft_type r) (set_cursor (5 + cursor w) w))
    = Ok (max_pax, base_co2)
    /\ fst (adjust_for_cabin (cabin_class r) max_pax base_co2 w)
       = Ok (capacity, co2_per_passenger_kg r)
    /\ capacity = (if (cabin_class r =? "business")%string then max_pax * 6 / 10
                   else if (cabin_class r =? "first")%string then max_pax * 3 / 10
                   else max_pax)
    /\ 0 <= passengers r <= capacity.
Proof.
  intros H.
  destruct (generated_record_shape self id route w r H)
    as (_ & _ & _ & _ & Ht & _ & Hp & Hc & _).
  destruct (drawn_body_bounds w) as [Hb1 Hb2].
  exists (fst (drawn_body w)), (snd (drawn_body w)).
  exists (fst (adjusted (cabin_class r) (fst (drawn_body w)) (snd (drawn_body w)))).
  split; [| split; [| split; [| exact Hp]]].
  - rewrite draw_body_Ok. cbn [fst]. rewrite Ht. unfold drawn_body.
    destruct (is_narrow_body (drawn_aircraft w)); reflexivity.
  - rewrite (adjust_for_cabin_Ok _ _ _ w Hb1 Hb2). cbn [fst]. rewrite Hc.
    rewrite <- surjective_pairing. reflexivity.
  - unfold adjusted. destruct (cabin_class r =? "business")%string; [reflexivity |].
    destruct (cabin_class r =? "first")%string; reflexivity.
Qed.

Lemma passengers_within_capacity_witness :
  exists max_pax base_co2 capacity,
    fst (draw_body (aircraft_type example_record)
           (set_cursor (5 + cursor example_world) example_world))
    = Ok (max_pax, base_co2)
    /\ fst (adjust_for_cabin (cabin_class example_record) max_pax base_co2 example_world)
       = Ok (capacity, co2_per_passenger_kg example_record)
    /\ capacity
       = (if (cabin_class example_record =? "business")%string then max_pax * 6 / 10
          else if (cabin_class example_record =? "first")%string then max_pax * 3 / 10
          else max_pax)
    /\ 0 <= passengers example_record <= capacity.
Proof.
  apply (passengers_within_capacity (small_config 3) 1 42 example_world).
  vm_compute. reflexivity.
Defined.

(** C5: in every record that [generate_flight_record] returns, the cabin
    class comes from one draw [rand_val = 1 + (raw draw mod 100)] in
    [1, 100]: economy below 85, business from 85 and below 97, first from
    97.  Of the hundred values of the draw, 84 give economy, 12 business and
    4 first. *)
Theorem cabin_class_thresholds
    (self : config) (id route : Z) (w : world) (r : FlightRecord) :
  fst (generate_flight_record self id route w) = Ok r ->
  exists rand_val,
    rand_val = 1 + raw w 4 mod 100
    /\ 1 <= rand_val <= 100
    /\ (rand_val < 85 -> cabin_class r = "economy")
    /\ (85 <= rand_val < 97 -> cabin_class r = "business")
    /\ (97 <= rand_val -> cabin_class r = "first")
    /\ List.length (filter (fun v => (cabin_class_of v =? "economy")%string) (zrange 1 100))
       = 84%nat
    /\ List.length (filter (fun v => (cabin_class_of v =? "business")%string) (zrange 1 100))
       = 12%nat
    /\ List.length (filter (fun v => (cabin_class_of v =? "first")%string) (zrange 1 100))
       = 4%nat.
Proof.
  intros H.
  destruct (generated_record_shape self id route w r H)
    as (_ & _ & _ & _ & _ & Hc & _).
  exists (drawn_rand_val w). split; [reflexivity |].
  split; [unfold drawn_rand_val; pose proof (mod_range (raw w 4) 100); lia |].
  rewrite Hc. unfold cabin_class_of.
  repeat split; try (vm_compute; reflexivity); intros Hv.
  - destruct (Z.ltb_spec (drawn_rand_val w) 85); [reflexivity | lia].
  - destruct (Z.ltb_spec (drawn_rand_val w) 85); [lia |].
    destruct (Z.ltb_spec (drawn_rand_val w) 97); [reflexivity | lia].
  - destruct (Z.ltb_spec (drawn_rand_val w) 85); [lia |].
    destruct (Z.ltb_spec (drawn_rand_val w) 97); [lia | reflexivity].
Qed.

Lemma cabin_class_thresholds_witness :
  exists rand_val,
    rand_val = 1 + raw example_world 4 mod 100
    /\ 1 <= rand_val <= 100
    /\ (rand_val < 85 -> cabin_class example_record = "economy")
    /\ (85 <= rand_val < 97 -> cabin_class example_record = "business")
    /\ (97 <= rand_val -> cabin_class example_record = "first")
    /\ List.length (filter (fun v => (cabin_class_of v =? "economy")%string) (zrange 1 100))
       = 84%nat
    /\ List.length (filter (fun v => (cabin_class_of v =? "business")%string) (zrange 1 100))
       = 12%nat
    /\ List.length (filter (fun v => (cabin_class_of v =? "first")%string) (zrange 1 100))
       = 4%nat.
Proof.
  apply (cabin_class_thresholds (small_config 3) 1 42 example_world).
  vm_compute. reflexivity.
Defined.

Lemma drawn_offset_range (self : config) (w : world) :
  ymd2ord (start_date self) <= ymd2ord (end_date self) ->
  0 <= drawn_offset self w <= ymd2ord (end_date self) - ymd2ord (start_date self).
Proof.
  intros H. unfold drawn_offset.
  pose proof (mod_range (raw w 0)
                (ymd2ord (end_date self) - ymd2ord (start_date self) + 1 - 0)).
  lia.
Qed.

(** C6: when the start date is not after the end date,
    [generate_flight_record] returns a record whose [flight_date] is a day
    from the start date to the end date, both included; when the two dates
    are the same day, [flight_date] is that day. *)
Theorem flight_date_within_range (self : config) (id route : Z) (w : world) :
  valid_ymd (start_date self) = true ->
  valid_ymd (end_date self) = true ->
  ymd_le (start_date self) (end_date self) ->
  exists r,
    fst (generate_flight_record self id route w) = Ok r
    /\ valid_ymd (flight_date r) = true
    /\ ymd_le (start_date self) (flight_date r)
    /\ ymd_le (flight_date r) (end_date self)
    /\ (start_date self = end_date self -> flight_date r = start_date self).
Proof.
  intros Vs Ve Hle.
  destruct (generate_flight_record_total self id route w (conj Vs (conj Ve Hle))) as [r Hr].
  exists r. split; [exact Hr |].
  destruct (generated_record_shape self id route w r Hr) as (_ & _ & Hd & _).
  apply (ymd_le_ordinal _ _ Vs Ve) in Hle.
  pose proof (ymd2ord_range _ Vs) as Rs. pose proof (ymd2ord_range _ Ve) as Re.
  pose proof (drawn_offset_range self w Hle) as Hoff.
  destruct (ymd2ord_ord2ymd_valid (ymd2ord (start_date self) + drawn_offset self w))
    as [Vd Ed]; [lia |].
  rewrite Hd. unfold strftime_ymd.
  split; [exact Vd |].
  split; [apply (ymd_le_ordinal _ _ Vs Vd); lia |].
  split; [apply (ymd_le_ordinal _ _ Vd Ve); lia |].
  intros Heq. apply ymd2ord_inj; [assumption .. |].
  rewrite <- Heq in Hoff. lia.
Qed.

Lemma flight_date_within_range_witness :
  exists r,
    fst (generate_flight_record single_day_config 1 42 example_world) = Ok r
    /\ valid_ymd (flight_date r) = true
    /\ ymd_le (start_date single_day_config) (flight_date r)
    /\ ymd_le (flight_date r) (end_date single_day_config)
    /\ (start_date single_day_config = end_date single_day_config ->
        flight_date r = start_date single_day_config).
Proof.
  apply (flight_date_within_range single_day_config 1 42 example_world).
  - vm_compute. reflexivity.
  - vm_compute. reflexivity.
  - right. reflexivity.
Defined.

(** C7: in one run of [generate_to_csv], whatever the configuration, the
    file holds the header and then one row per completed call of
    [generate_flight_record], and the [record_id]s of these rows, in the
    order written, are 1, 2, ..., [k]: strictly increasing, so without
    duplicates, and without gaps.  [k] is [total_records] when the run
    completes, and the run completes when the date range is a range and the
    batch size is not zero. *)
Theorem record_ids_contiguous (self : config) (w : world) :
  exists rows k,
    disk (snd (generate_to_csv self w)) = Some (Header fieldnames :: map Row rows)
    /\ Forall (generated self) rows
    /\ (k <= Z.to_nat (total_records self))%nat
    /\ map record_id rows = zrange 1 k
    /\ (forall j, (j < k)%nat -> nth j (map record_id rows) 0 = 1 + Z.of_nat j)
    /\ StronglySorted Z.lt (map record_id rows)
    /\ (fst (generate_to_csv self w) = Ok tt -> k = Z.to_nat (total_records self))
    /\ (date_range_ok self -> batch_size self <> 0 ->
        fst (generate_to_csv self w) = Ok tt).
Proof.
  destruct (generate_to_csv_prefix self w) as (rows & k & Hk & Hd & Hall & Hids & Hdone).
  exists rows, k. repeat split; try assumption.
  - intros j Hj. rewrite Hids. apply zrange_nth. exact Hj.
  - rewrite Hids. apply zrange_sorted.
  - intros Hr Hb. destruct (date_range_ok_ordinals self Hr) as (Vs & Ve & Ho).
    destruct (generate_to_csv_Ok self Vs Ve Ho Hb w) as (rs & w' & Hrun & _).
    rewrite Hrun. reflexivity.
Qed.

Lemma record_ids_contiguous_witness :
  exists rows,
    generate_to_csv (small_config 3) example_world
    = (Ok tt, snd (generate_to_csv (small_config 3) example_world))
    /\ disk (snd (generate_to_csv (small_config 3) example_world))
       = Some (Header fieldnames :: map Row rows)
    /\ map record_id rows = [1; 2; 3].
Proof.
  destruct (record_ids_contiguous (small_config 3) example_world)
    as (rows & k & Hd & _ & _ & Hids & _ & _ & Hdone & Hok).
  assert (Hrun : fst (generate_to_csv (small_config 3) example_world) = Ok tt).
  { apply Hok; [| cbn; lia].
    split; [vm_compute; reflexivity |]. split; [vm_compute; reflexivity |].
    left. right. split; [reflexivity |]. left. cbn. lia. }
  exists rows. split; [| split; [exact Hd |]].
  - rewrite <- Hrun. apply surjective_pairing.
  - rewrite Hids, (Hdone Hrun). reflexivity.
Defined.

(** C8: in every record that [generate_flight_record] returns,
    [flight_number] is the first ten characters of an airline code followed
    by a numeric suffix: the code is the entry of the ten-entry catalog at
    index [raw draw mod 10], the suffix is the numeral of
    [100 + (raw draw mod 9900)], a number from 100 to 9999, which the format
    [04d] writes with four digits.  The result has six characters, so the
    slice removes nothing, and none of them is a comma. *)
Theorem flight_number_shape
    (self : config) (id route : Z) (w : world) (r : FlightRecord) :
  fst (generate_flight_record self id route w) = Ok r ->
  List.length airline_codes = 10%nat
  /\ exists airline number,
       airline = nth (Z.to_nat (raw w 1 mod 10)) airline_codes ""
       /\ In airline airline_codes
       /\ number = 100 + raw w 2 mod 9900
       /\ 100 <= number <= 9999
       /\ flight_number r = substring 0 10 (airline ++ format_04d number)%string
       /\ four_digits (format_04d number) = true
       /\ (3 <= String.length (format_04d number) <= 4)%nat
       /\ (String.length (flight_number r) <= 10)%nat
       /\ flight_number r = (airline ++ format_04d number)%string
       /\ ~ In ","%char (list_ascii_of_string (flight_number r)).
Proof.
  intros H. split; [reflexivity |].
  destruct (generated_record_shape self id route w r H) as (_ & _ & _ & Hf & _).
  exists (drawn_airline w), (drawn_number w).
  assert (Ha : In (drawn_airline w) airline_codes)
    by (apply (choice_In airline_codes); discriminate).
  assert (Hn : 100 <= drawn_number w <= 9999)
    by (unfold drawn_number; pose proof (mod_range (raw w 2) 9900); lia).
  destruct (flight_number_six _ _ Ha Hn) as (Hsub & Hlen & Hcomma).
  pose proof (format_04d_four_digits _ Hn) as Hd.
  rewrite Hf, Hsub, Hlen.
  repeat split; try assumption; try lia.
  - destruct (format_04d (drawn_number w)) as [| a [| b [| c [| d [| ? ?]]]]];
      try discriminate Hd. cbn. lia.
  - destruct (format_04d (drawn_number w)) as [| a [| b [| c [| d [| ? ?]]]]];
      try discriminate Hd. cbn. lia.
Qed.

Lemma flight_number_shape_witness :
  List.length airline_codes = 10%nat
  /\ exists airline number,
       airline = nth (Z.to_nat (raw example_world 1 mod 10)) airline_codes ""
       /\ In airline airline_codes
       /\ number = 100 + raw example_world 2 mod 9900
       /\ 100 <= number <= 9999
       /\ flight_number example_record
          = substring 0 10 (airline ++ format_04d number)%string
       /\ four_digits (format_04d number) = true
       /\ (3 <= String.length (format_04d number) <= 4)%nat
       /\ (String.length (flight_number example_record) <= 10)%nat
       /\ flight_number example_record = (airline ++ format_04d number)%string
       /\ ~ In ","%char (list_ascii_of_string (flight_number example_record)).
Proof.
  apply (flight_number_shape (small_config 3) 1 42 example_world).
  vm_compute. reflexivity.
Defined.

(** C9: with [total_records] set to 0, [generate_to_csv] completes and
    leaves a file that holds the header and nothing else; with
    [total_records] set to 1 and a date range that is a range, it leaves a
    file that holds the header and one row, whose [record_id] is 1, and it
    completes when the batch size is not zero. *)
Theorem boundary_record_counts (self : config) (w : world) :
  (fst (generate_to_csv (set_total_records 0 self) w) = Ok tt
   /\ disk (snd (generate_to_csv (set_total_records 0 self) w))
      = Some [Header fieldnames]
   /\ rows_of [Header fieldnames] = [])
  /\ (date_range_ok self ->
      exists r,
        disk (snd (generate_to_csv (set_total_records 1 self) w))
        = Some [Header fieldnames; Row r]
        /\ rows_of [Header fieldnames; Row r] = [r]
        /\ record_id r = 1
        /\ generated (set_total_records 1 self) r
        /\ (batch_size self <> 0 ->
            fst (generate_to_csv (set_total_records 1 self) w) = Ok tt)).
Proof.
  split.
  - rewrite (generate_to_csv_none (set_total_records 0 self) w) by (cbn; lia).
    repeat split.
  - intros Hd. destruct (date_range_ok_ordinals self Hd) as (Vs & Ve & Hr).
    set (one := set_total_records 1 self).
    unfold generate_to_csv. change (Z.to_nat (total_records one)) with 1%nat.
    do 4 (erewrite bind_Ok by reflexivity).
    match goal with |- context [bind (write_records _ _ _) _ ?w0] => set (w1 := w0) end.
    destruct (write_record_row one Vs Ve Hr 1 w1 [Header fieldnames] eq_refl)
      as (r & Hg & Hid & Hdisk & Hok).
    exists r. cbn [write_records app] in *. unfold bind.
    change (batch_size one) with (batch_size self) in Hok.
    destruct (write_record one 1 w1) as [[[] | e] w2]; cbn [fst snd] in *;
      repeat split; assumption.
Qed.

Lemma boundary_record_counts_witness :
  (fst (generate_to_csv (set_total_records 0 (small_config 3)) used_world) = Ok tt
   /\ disk (snd (generate_to_csv (set_total_records 0 (small_config 3)) used_world))
      = Some [Header fieldnames]
   /\ rows_of [Header fieldnames] = [])
  /\ exists r,
       disk (snd (generate_to_csv (set_total_records 1 (small_config 3)) used_world))
       = Some [Header fieldnames; Row r]
       /\ rows_of [Header fieldnames; Row r] = [r]
       /\ record_id r = 1
       /\ generated (set_total_records 1 (small_config 3)) r
       /\ (batch_size (small_config 3) <> 0 ->
           fst (generate_to_csv (set_total_records 1 (small_config 3)) used_world)
           = Ok tt).
Proof.
  destruct (boundary_record_counts (small_config 3) used_world) as [Zero One].
  split; [exact Zero |]. apply One.
  split; [vm_compute; reflexivity |]. split; [vm_compute; reflexivity |].
  left. right. split; [reflexivity |]. left. cbn. lia.
Defined.

(** C10: with an end date before the start date, whatever the destination
    held before, [generate_to_csv] leaves a file that holds the header and
    nothing else; and when at least one record is requested it raises
    [ValueError], which comes from the call of [generate_flight_record] for
    record 1, made after the file was emptied and the header written: that
    call raises in a world where the file already holds the header only, and
    after one raw draw, the one of [route_id]. *)
Theorem inverted_range_truncates_output (self : config) (w : world) :
  inverted_range self ->
  disk (snd (generate_to_csv self w)) = Some [Header fieldnames]
  /\ rows_of [Header fieldnames] = []
  /\ (1 <= total_records self ->
      exists w1,
        generate_to_csv self w = (Raised ValueError, w1)
        /\ disk w1 = Some [Header fieldnames]
        /\ cursor w1 = S (cursor w)
        /\ forall route,
             generate_flight_record self 1 route w1 = (Raised ValueError, w1))
  /\ (total_records self <= 0 -> fst (generate_to_csv self w) = Ok tt).
Proof.
  intros Hinv. destruct (inverted_range_ordinals self Hinv) as (Vs & Ve & G).
  assert (Hd : disk (snd (generate_to_csv self w)) = Some [Header fieldnames]).
  { destruct (Z.le_gt_cases (total_records self) 0) as [H0 | H1].
    - rewrite (generate_to_csv_none self w H0). reflexivity.
    - rewrite (generate_to_csv_inverted self w Vs Ve G ltac:(lia)). reflexivity. }
  split; [exact Hd |]. split; [reflexivity |]. split.
  - intros H1. exists (set_cursor (S (cursor w)) (after_header self w)).
    split; [apply generate_to_csv_inverted; assumption |].
    split; [reflexivity |]. split; [reflexivity |].
    intros route. apply generate_flight_record_inverted; assumption.
  - intros H0. rewrite (generate_to_csv_none self w H0). reflexivity.
Qed.

Lemma inverted_range_truncates_output_witness :
  disk (snd (generate_to_csv inverted_config used_world)) = Some [Header fieldnames]
  /\ rows_of [Header fieldnames] = []
  /\ (1 <= total_records inverted_config ->
      exists w1,
        generate_to_csv inverted_config used_world = (Raised ValueError, w1)
        /\ disk w1 = Some [Header fieldnames]
        /\ cursor w1 = S (cursor used_world)
        /\ forall route,
             generate_flight_record inverted_config 1 route w1
             = (Raised ValueError, w1))
  /\ (total_records inverted_config <= 0 ->
      fst (generate_to_csv inverted_config used_world) = Ok tt).
Proof.
  apply (inverted_range_truncates_output inverted_config used_world).
  split; [vm_compute; reflexivity |]. split; [vm_compute; reflexivity |].
  right. split; [reflexivity |]. left. cbn. lia.
Defined.




(** * Further properties of the code *)

(** ** Errors and edges of a run *)

Lemma generate_flight_record_no_such_day (self : config) (id route : Z) (w : world) :
  no_such_day self -> generate_flight_record self id route w = (Raised ValueError, w).
Proof.
  intros H. unfold generate_flight_record.
  destruct (valid_ymd (start_date self)) eqn:Vs.
  - destruct H as [H | H]; [congruence |].
    rewrite (bind_Ok _ _ _ _ _ (strptime_Ok _ w Vs)).
    apply bind_Raised. apply strptime_invalid. exact H.
  - apply bind_Raised. apply strptime_invalid. exact Vs.
Qed.

(** X5: [generate_flight_record] never touches the file, the standard
    output or the flush count.  When it returns, the record carries the
    given [record_id], and the call has consumed eight raw draws and one
    clock reading; when it raises, the exception is [ValueError] and the
    world is as it was. *)
Theorem generate_flight_record_frame (self : config) (id route : Z) (w : world) :
  disk (snd (generate_flight_record self id route w)) = disk w
  /\ stdout (snd (generate_flight_record self id route w)) = stdout w
  /\ flushes (snd (generate_flight_record self id route w)) = flushes w
  /\ match fst (generate_flight_record self id route w) with
     | Ok r =>
         record_id r = id
         /\ cursor (snd (generate_flight_record self id route w)) = (8 + cursor w)%nat
         /\ clock_reads (snd (generate_flight_record self id route w))
            = S (clock_reads w)
     | Raised e =>
         e = ValueError /\ snd (generate_flight_record self id route w) = w
     end.
Proof.
  destruct (generate_flight_record_cases self id route w) as [(r & H & Hid) | H];
    rewrite H; cbn [fst snd]; repeat split; exact Hid.
Qed.

(** When every call for record 1 raises [ValueError] and at least one record
    is requested, the run stops there: one raw draw spent, the header on
    disk. *)
Lemma generate_to_csv_first_call_raises (self : config) (w : world) :
  (forall route w1, generate_flight_record self 1 route w1 = (Raised ValueError, w1)) ->
  1 <= total_records self ->
  generate_to_csv self w
  = (Raised ValueError, set_cursor (S (cursor w)) (after_header self w)).
Proof.
  intros Hgen Hn. unfold generate_to_csv.
  destruct (Z.to_nat (total_records self)) as [| n] eqn:En; [lia |].
  do 4 (erewrite bind_Ok by reflexivity).
  match goal with |- context [bind (write_records _ _ _) _ ?w0] => set (w1 := w0) end.
  assert (Hw : write_records self (S n) 1 w1
               = (Raised ValueError, set_cursor (S (cursor w1)) w1)).
  { cbn [write_records]. apply bind_Raised. unfold write_record.
    rewrite (bind_Ok _ _ _ _ _ (randint_Ok 1 10000 w1 ltac:(lia))).
    apply bind_Raised. apply Hgen. }
  rewrite (bind_Raised _ _ _ _ _ Hw). subst w1.
  unfold after_header, header_only, set_cursor, set_stdout, set_disk.
  cbn [disk stdout entropy cursor wall_clock clock_reads flushes app].
  repeat rewrite <- app_assoc. reflexivity.
Qed.

(** X8: when the text of a configured date names no day (as 2023-02-29),
    every call of [generate_flight_record] raises [ValueError] from
    [strptime]; [generate_to_csv] then leaves a file that holds the header
    only, and raises [ValueError] as soon as one record is requested. *)
Theorem no_such_day_stops_first_record (self : config) (w : world) :
  no_such_day self ->
  (forall id route w1, generate_flight_record self id route w1 = (Raised ValueError, w1))
  /\ disk (snd (generate_to_csv self w)) = Some [Header fieldnames]
  /\ (1 <= total_records self -> fst (generate_to_csv self w) = Raised ValueError)
  /\ (total_records self <= 0 -> fst (generate_to_csv self w) = Ok tt).
Proof.
  intros H.
  assert (Hgen : forall id route w1,
             generate_flight_record self id route w1 = (Raised ValueError, w1))
    by (intros; apply generate_flight_record_no_such_day; exact H).
  split; [exact Hgen |].
  destruct (Z.le_gt_cases (total_records self) 0) as [H0 | H1].
  - rewrite (generate_to_csv_none self w H0). repeat split. intros; lia.
  - rewrite (generate_to_csv_first_call_raises self w (Hgen 1) ltac:(lia)).
    repeat split. intros; lia.
Qed.

Lemma no_such_day_stops_first_record_witness :
  (forall id route w1,
     generate_flight_record leap_day_config id route w1 = (Raised ValueError, w1))
  /\ disk (snd (generate_to_csv leap_day_config used_world)) = Some [Header fieldnames]
  /\ fst (generate_to_csv leap_day_config used_world) = Raised ValueError.
Proof.
  destruct (no_such_day_stops_first_record leap_day_config used_world)
    as (A & B & C & _); [right; vm_compute; reflexivity |].
  split; [exact A |]. split; [exact B |]. apply C. cbn. lia.
Defined.

Section ZeroBatch.

Variable self : config.

Hypothesis start_valid : valid_ymd (start_date self) = true.
Hypothesis end_valid : valid_ymd (end_date self) = true.
Hypothesis range_ok : ymd2ord (start_date self) <= ymd2ord (end_date self).
Hypothesis batch_zero : batch_size self = 0.

Lemma write_record_batch_zero (i : Z) (w : world) (ls : list csv_line) :
  disk w = Some ls ->
  exists r,
    generated self r /\ record_id r = i /\ 1 <= route_id r <= 10000
    /\ fst (write_record self i w) = Raised ZeroDivisionError
    /\ disk (snd (write_record self i w)) = Some (ls ++ [Row r])
    /\ stdout (snd (write_record self i w)) = stdout w.
Proof.
  intros Hd. unfold write_record.
  rewrite (bind_Ok _ _ _ _ _ (randint_Ok 1 10000 w ltac:(lia))).
  set (route := 1 + entropy w (cursor w) mod (10000 + 1 - 1)).
  set (w1 := set_cursor (S (cursor w)) w).
  destruct (generate_flight_record_run self i route w1 start_valid end_valid range_ok)
    as (p & _ & Hgen).
  rewrite (bind_Ok _ _ _ _ _ Hgen).
  match type of Hgen with _ = (Ok ?r, _) => exists r end.
  split; [exists i, route, w1; rewrite Hgen; reflexivity |].
  split; [reflexivity |].
  split.
  { cbn [route_id]. subst route.
    pose proof (mod_range (entropy w (cursor w)) (10000 + 1 - 1)). lia. }
  unfold bind at 1 2, append_line at 1 2. rewrite batch_zero. cbn [Z.eqb].
  split; [reflexivity |]. split; [cbn; rewrite Hd; reflexivity | reflexivity].
Qed.

Lemma generate_to_csv_batch_zero (w : world) :
  1 <= total_records self ->
  exists r,
    record_id r = 1 /\ generated self r
    /\ fst (generate_to_csv self w) = Raised ZeroDivisionError
    /\ disk (snd (generate_to_csv self w)) = Some [Header fieldnames; Row r]
    /\ stdout (snd (generate_to_csv self w))
       = stdout w ++ [MsgGenerating (total_records self);
                      MsgDateRange (start_date self) (end_date self)].
Proof.
  intros Hn. unfold generate_to_csv.
  destruct (Z.to_nat (total_records self)) as [| n] eqn:En; [lia |].
  do 4 (erewrite bind_Ok by reflexivity).
  match goal with |- context [bind (write_records _ _ _) _ ?w0] => set (w1 := w0) end.
  destruct (write_record_batch_zero 1 w1 [Header fieldnames] eq_refl)
    as (r & Hg & Hid & _ & Hf & Hdisk & Hout).
  exists r. split; [exact Hid |]. split; [exact Hg |].
  cbn [write_records app] in *. unfold bind.
  destruct (write_record self 1 w1) as [[[] | e] w2]; cbn [fst snd] in *;
    [discriminate Hf |].
  split; [exact Hf |]. split; [exact Hdisk |].
  rewrite Hout. subst w1. cbn [stdout set_disk set_stdout].
  rewrite <- app_assoc. reflexivity.
Qed.

End ZeroBatch.

(** X6: with a date range that is a range, a batch size of 0 and at least
    one record requested, [generate_to_csv] writes the row of record 1 and
    then raises [ZeroDivisionError] in the progress test [i % batch_size]:
    the file holds the header and that one row. *)
Theorem zero_batch_size_stops_after_first_row (self : config) (w : world) :
  date_range_ok self -> batch_size self = 0 -> 1 <= total_records self ->
  exists r,
    record_id r = 1 /\ generated self r
    /\ fst (generate_to_csv self w) = Raised ZeroDivisionError
    /\ disk (snd (generate_to_csv self w)) = Some [Header fieldnames; Row r].
Proof.
  intros Hd Hb Hn. destruct (date_range_ok_ordinals self Hd) as (Vs & Ve & Hr).
  destruct (generate_to_csv_batch_zero self Vs Ve Hr Hb w Hn)
    as (r & Hid & Hg & Hf & Hdisk & _).
  exists r. repeat split; assumption.
Qed.

Lemma zero_batch_size_stops_after_first_row_witness :
  exists r,
    record_id r = 1 /\ generated zero_batch_config r
    /\ fst (generate_to_csv zero_batch_config example_world) = Raised ZeroDivisionError
    /\ disk (snd (generate_to_csv zero_batch_config example_world))
       = Some [Header fieldnames; Row r].
Proof.
  apply (zero_batch_size_stops_after_first_row zero_batch_config example_world).
  - split; [vm_compute; reflexivity |]. split; [vm_compute; reflexivity |].
    left. right. split; [reflexivity |]. left. cbn. lia.
  - reflexivity.
  - cbn. lia.
Defined.

(** One turn of the loop, whatever the configuration: the route of the row
    it appends, if it appends one, is from 1 to 10000. *)
Lemma write_record_route (self : config) (i : Z) (w : world) (ls : list csv_line) :
  disk w = Some ls ->
  (exists r,
     1 <= route_id r <= 10000
     /\ disk (snd (write_record self i w)) = Some (ls ++ [Row r]))
  \/ (fst (write_record self i w) = Raised ValueError
      /\ disk (snd (write_record self i w)) = Some ls).
Proof.
  intros Hd. unfold write_record.
  rewrite (bind_Ok _ _ _ _ _ (randint_Ok 1 10000 w ltac:(lia))).
  set (route := 1 + entropy w (cursor w) mod (10000 + 1 - 1)).
  set (w1 := set_cursor (S (cursor w)) w).
  destruct (generate_flight_record_cases self i route w1) as [(r & Hgen & Hid) | Hgen].
  - left. exists r. rewrite (bind_Ok _ _ _ _ _ Hgen).
    assert (Hroute : route_id r = route).
    { apply (generated_record_shape self i route w1 r). rewrite Hgen. reflexivity. }
    split.
    { rewrite Hroute. subst route.
      pose proof (mod_range (entropy w (cursor w)) (10000 + 1 - 1)). lia. }
    unfold bind at 1, append_line at 1.
    destruct (Z.eqb_spec (batch_size self) 0) as [E | E];
      [| destruct (i mod batch_size self =? 0)]; cbn; rewrite Hd; reflexivity.
  - right. rewrite (bind_Raised _ _ _ _ _ Hgen). split; [reflexivity | exact Hd].
Qed.

Lemma write_records_route (self : config) (n : nat) :
  forall (i : Z) (w : world) (ls : list csv_line),
    disk w = Some ls ->
    exists rows,
      disk (snd (write_records self n i w)) = Some (ls ++ map Row rows)
      /\ Forall (fun r => 1 <= route_id r <= 10000) rows.
Proof.
  induction n as [| n IH]; intros i w ls Hd.
  - exists []. cbn [write_records map]. rewrite app_nil_r. split; [exact Hd | constructor].
  - cbn [write_records]. unfold bind.
    destruct (write_record_route self i w ls Hd) as [(r & Hr & Hdisk) | [Hf Hdisk]].
    + destruct (write_record self i w) as [[[] | e] w1]; cbn [fst snd] in *.
      * destruct (IH (i + 1) w1 (ls ++ [Row r]) Hdisk) as (rows & Hd2 & Hall).
        exists (r :: rows). split; [rewrite Hd2, <- app_assoc; reflexivity |].
        constructor; assumption.
      * exists [r]. split; [exact Hdisk | constructor; [exact Hr | constructor]].
    + destruct (write_record self i w) as [[[] | e] w1]; cbn [fst snd] in *;
        [discriminate Hf |].
      exists []. cbn [map]. rewrite app_nil_r. split; [exact Hdisk | constructor].
Qed.

(** X1: whatever the configuration, every row that [generate_to_csv]
    writes has a [route_id] from 1 to 10000. *)
Theorem written_routes_in_range (self : config) (w : world) :
  exists rows,
    disk (snd (generate_to_csv self w)) = Some (Header fieldnames :: map Row rows)
    /\ Forall (fun r => 1 <= route_id r <= 10000) rows.
Proof.
  unfold generate_to_csv.
  do 4 (erewrite bind_Ok by reflexivity).
  match goal with |- context [bind (write_records _ _ _) _ ?w0] => set (w1 := w0) end.
  destruct (write_records_route self (Z.to_nat (total_records self)) 1 w1
              [Header fieldnames] eq_refl) as (rows & Hd & Hall).
  exists rows. unfold bind.
  destruct (write_records self (Z.to_nat (total_records self)) 1 w1) as [[[] | e] w2];
    cbn [fst snd] in *; split; assumption.
Qed.

(** [generate_to_csv] opens the destination for writing, not for
    appending: its outcome and the world it leaves, the file with it, are the
    same whatever the destination held before. *)
Theorem generate_to_csv_overwrites
    (self : config) (w : world) (old : option (list csv_line)) :
  generate_to_csv self (set_disk old w) = generate_to_csv self w.
Proof. reflexivity. Qed.

Lemma zrange_snoc (n : nat) (lo : Z) :
  zrange lo (S n) = zrange lo n ++ [lo + Z.of_nat n].
Proof.
  revert lo. induction n as [| n IH]; intros lo.
  - cbn. rewrite Z.add_0_r. reflexivity.
  - change (zrange lo (S (S n))) with (lo :: zrange (lo + 1) (S n)).
    rewrite IH. cbn [zrange app].
    replace (lo + 1 + Z.of_nat n) with (lo + Z.of_nat (S n)) by lia. reflexivity.
Qed.

(** Python's [i % b == 0], for [b] of either sign, is divisibility by
    [|b|]. *)
Lemma mod_zero_abs (i b : Z) : b <> 0 -> (i mod b =? 0) = (i mod Z.abs b =? 0).
Proof.
  intros Hb. destruct (Z.eqb_spec (i mod b) 0) as [E | E];
    destruct (Z.eqb_spec (i mod Z.abs b) 0) as [F | F]; try reflexivity; exfalso.
  - apply F. apply Z.mod_divide; [lia |]. apply Z.divide_abs_l.
    apply Z.mod_divide; assumption.
  - apply E. apply Z.mod_divide; [assumption |]. apply Z.divide_abs_l.
    apply Z.mod_divide; [lia | assumption].
Qed.

(** Among 1, ..., [n] there are [n / |b|] multiples of [b]. *)
Lemma multiples_count (b : Z) (n : nat) :
  b <> 0 ->
  List.length (filter (fun j => j mod b =? 0) (zrange 1 n))
  = Z.to_nat (Z.of_nat n / Z.abs b).
Proof.
  intros Hb. induction n as [| n IH].
  - cbn [zrange filter List.length]. change (Z.of_nat 0) with 0.
    rewrite Z.div_0_l by lia. reflexivity.
  - rewrite zrange_snoc, filter_app, length_app, IH. cbn [filter].
    rewrite (mod_zero_abs _ b Hb).
    assert (Ha : 0 < Z.abs b) by lia.
    assert (H0 : 0 <= Z.of_nat n / Z.abs b) by (apply Z.div_pos; lia).
    destruct (Z.eqb_spec ((1 + Z.of_nat n) mod Z.abs b) 0) as [E | E]; cbn [List.length].
    + replace (Z.of_nat (S n) / Z.abs b) with (Z.of_nat n / Z.abs b + 1); [lia |].
      replace (Z.of_nat (S n)) with (1 + Z.of_nat n) by lia.
      generalize dependent (Z.abs b). intros a E Ha H0.
      Z.div_mod_to_equations. nia.
    + replace (Z.of_nat (S n) / Z.abs b) with (Z.of_nat n / Z.abs b); [lia |].
      replace (Z.of_nat (S n)) with (1 + Z.of_nat n) by lia.
      generalize dependent (Z.abs b). intros a E Ha H0.
      Z.div_mod_to_equations. nia.
Qed.

Section Accounting.

Variable self : config.

Hypothesis start_valid : valid_ymd (start_date self) = true.
Hypothesis end_valid : valid_ymd (end_date self) = true.
Hypothesis range_ok : ymd2ord (start_date self) <= ymd2ord (end_date self).
Hypothesis batch_ok : batch_size self <> 0.

(** One turn of a complete run: nine raw draws (the route and the eight of
    the record), one clock reading, and one flush when the batch size
    divides the index. *)
Lemma write_record_account (i : Z) (w : world) :
  exists w',
    write_record self i w = (Ok tt, w')
    /\ cursor w' = (9 + cursor w)%nat
    /\ clock_reads w' = S (clock_reads w)
    /\ flushes w'
       = (flushes w + (if (i mod batch_size self =? 0)%Z then 1 else 0))%nat.
Proof.
  unfold write_record.
  rewrite (bind_Ok _ _ _ _ _ (randint_Ok 1 10000 w ltac:(lia))).
  set (route := 1 + entropy w (cursor w) mod (10000 + 1 - 1)).
  set (w1 := set_cursor (S (cursor w)) w).
  destruct (generate_flight_record_run self i route w1 start_valid end_valid range_ok)
    as (p & _ & Hgen).
  rewrite (bind_Ok _ _ _ _ _ Hgen).
  unfold bind at 1, append_line at 1.
  destruct (Z.eqb_spec (batch_size self) 0) as [E | _]; [contradiction |].
  destruct (i mod batch_size self =? 0); eexists; (split; [reflexivity |]);
    subst w1;
    cbn [cursor clock_reads flushes set_disk set_clock_reads set_cursor set_flushes];
    repeat split; lia.
Qed.

Lemma write_records_account (n : nat) :
  forall (i : Z) (w : world),
    exists w',
      write_records self n i w = (Ok tt, w')
      /\ cursor w' = (9 * n + cursor w)%nat
      /\ clock_reads w' = (n + clock_reads w)%nat
      /\ flushes w'
         = (flushes w
            + List.length
                (filter (fun j => (j mod batch_size self =? 0)%Z) (zrange i n)))%nat.
Proof.
  induction n as [| n IH]; intros i w.
  - exists w. cbn [write_records zrange filter List.length]. repeat split; lia.
  - destruct (write_record_account i w) as (w1 & Hrun & Hc & Hk & Hf).
    destruct (IH (i + 1) w1) as (w2 & Hrun2 & Hc2 & Hk2 & Hf2).
    exists w2. cbn [write_records]. rewrite (bind_Ok _ _ _ _ _ Hrun).
    split; [exact Hrun2 |]. cbn [zrange filter].
    rewrite Hc2, Hk2, Hf2, Hc, Hk, Hf.
    destruct (i mod batch_size self =? 0); cbn [List.length]; repeat split; lia.
Qed.

Lemma generate_to_csv_account (w : world) :
  exists w',
    generate_to_csv self w = (Ok tt, w')
    /\ cursor w' = (9 * Z.to_nat (total_records self) + cursor w)%nat
    /\ clock_reads w' = (Z.to_nat (total_records self) + clock_reads w)%nat
    /\ flushes w'
       = (flushes w
          + Z.to_nat (Z.of_nat (Z.to_nat (total_records self))
                      / Z.abs (batch_size self)))%nat.
Proof.
  unfold generate_to_csv.
  do 4 (erewrite bind_Ok by reflexivity).
  match goal with |- context [bind (write_records _ _ _) _ ?w0] => set (w1 := w0) end.
  destruct (write_records_account (Z.to_nat (total_records self)) 1 w1)
    as (w2 & Hrun & Hc & Hk & Hf).
  rewrite (bind_Ok _ _ _ _ _ Hrun).
  eexists. split; [reflexivity |].
  cbn [cursor clock_reads flushes set_stdout].
  rewrite Hc, Hk, Hf, (multiples_count _ _ batch_ok). subst w1.
  repeat split.
Qed.

End Accounting.

(** X7: a run that completes, with [n = total_records] records, consumes
    [9 * n] raw draws (the route and the eight draws of each record), reads
    the clock [n] times, and flushes the file [n / |batch_size|] times, once
    per index that the batch size divides. *)
Theorem complete_run_accounting (self : config) (w : world) :
  date_range_ok self -> batch_size self <> 0 -> 0 <= total_records self ->
  fst (generate_to_csv self w) = Ok tt
  /\ Z.of_nat (cursor (snd (generate_to_csv self w)))
     = Z.of_nat (cursor w) + 9 * total_records self
  /\ Z.of_nat (clock_reads (snd (generate_to_csv self w)))
     = Z.of_nat (clock_reads w) + total_records self
  /\ Z.of_nat (flushes (snd (generate_to_csv self w)))
     = Z.of_nat (flushes w) + total_records self / Z.abs (batch_size self).
Proof.
  intros Hd Hb Hn. destruct (date_range_ok_ordinals self Hd) as (Vs & Ve & Hr).
  destruct (generate_to_csv_account self Vs Ve Hr Hb w) as (w' & Hrun & Hc & Hk & Hf).
  rewrite Hrun. cbn [fst snd]. rewrite Hc, Hk, Hf.
  rewrite Z2Nat.id by lia.
  assert (0 <= total_records self / Z.abs (batch_size self)) by (apply Z.div_pos; lia).
  repeat split; lia.
Qed.

Lemma complete_run_accounting_witness :
  fst (generate_to_csv (small_config 3) example_world) = Ok tt
  /\ Z.of_nat (cursor (snd (generate_to_csv (small_config 3) example_world)))
     = Z.of_nat (cursor example_world) + 9 * total_records (small_config 3)
  /\ Z.of_nat (clock_reads (snd (generate_to_csv (small_config 3) example_world)))
     = Z.of_nat (clock_reads example_world) + total_records (small_config 3)
  /\ Z.of_nat (flushes (snd (generate_to_csv (small_config 3) example_world)))
     = Z.of_nat (flushes example_world)
       + total_records (small_config 3) / Z.abs (batch_size (small_config 3)).
Proof.
  apply (complete_run_accounting (small_config 3) example_world).
  - split; [vm_compute; reflexivity |]. split; [vm_compute; reflexivity |].
    left. right. split; [reflexivity |]. left. cbn. lia.
  - cbn. lia.
  - cbn. lia.
Defined.

(** X11: [generate_to_csv] completes exactly when no record is requested,
    or the date range is a range and the batch size is not zero. *)
Theorem generate_to_csv_completes_iff (self : config) (w : world) :
  fst (generate_to_csv self w) = Ok tt
  <-> total_records self <= 0 \/ (date_range_ok self /\ batch_size self <> 0).
Proof.
  split.
  - intros Hok.
    destruct (Z.le_gt_cases (total_records self) 0) as [H0 | H1]; [left; exact H0 | right].
    destruct (valid_ymd (start_date self)) eqn:Vs.
    2:{ rewrite (generate_to_csv_first_call_raises self w) in Hok;
          [discriminate Hok | | lia].
        intros. apply generate_flight_record_no_such_day. left. exact Vs. }
    destruct (valid_ymd (end_date self)) eqn:Ve.
    2:{ rewrite (generate_to_csv_first_call_raises self w) in Hok;
          [discriminate Hok | | lia].
        intros. apply generate_flight_record_no_such_day. right. exact Ve. }
    destruct (Z.le_gt_cases (ymd2ord (start_date self)) (ymd2ord (end_date self)))
      as [L | G].
    2:{ rewrite (generate_to_csv_inverted self w Vs Ve G) in Hok by lia.
        discriminate Hok. }
    split.
    + split; [exact Vs |]. split; [exact Ve |]. apply ymd_le_ordinal; assumption.
    + intros Hb.
      destruct (generate_to_csv_batch_zero self Vs Ve L Hb w ltac:(lia))
        as (r & _ & _ & Hf & _).
      rewrite Hf in Hok. discriminate Hok.
  - intros [H0 | [Hd Hb]].
    + rewrite (generate_to_csv_none self w H0). reflexivity.
    + destruct (date_range_ok_ordinals self Hd) as (Vs & Ve & Hr).
      destruct (generate_to_csv_Ok self Vs Ve Hr Hb w) as (rs & w' & Hrun & _).
      rewrite Hrun. reflexivity.
Qed.

(** [main], once the generator is constructed, by what [generate_to_csv]
    does after the first clock reading. *)
Lemma main_with_unfold (cfg : config) (w : world) :
  dirname (output_file cfg) <> "" ->
  main_with cfg w
  = match generate_to_csv cfg (set_clock_reads (S (clock_reads w)) w) with
    | (Ok _, w2) =>
        (Ok tt,
         set_stdout
           (stdout w2
            ++ [MsgCompleted (wall_clock w2 (clock_reads w2) - wall_clock w (clock_reads w))])
           (set_clock_reads (S (clock_reads w2)) w2))
    | (Raised e, w2) => (Ok tt, set_stdout (stdout w2 ++ [MsgError e]) w2)
    end.
Proof.
  intros Hd. rewrite (main_with_constructed cfg w Hd). unfold try_except.
  erewrite bind_Ok by reflexivity. unfold bind at 1.
  destruct (generate_to_csv cfg (set_clock_reads (S (clock_reads w)) w))
    as [[[] | e] w2]; [reflexivity |].
  destruct e; reflexivity.
Qed.



(** X10: [main], which runs the shipped [CONFIG], returns in every world:
    it writes the header and 1000000 rows with [record_id] 1 to 1000000,
    flushes 10 times and consumes 9000000 raw draws. *)
Theorem main_default_run (w : world) :
  exists rows,
    fst (main w) = Ok tt
    /\ disk (snd (main w)) = Some (Header fieldnames :: map Row rows)
    /\ map record_id rows = zrange 1 (Z.to_nat 1000000)
    /\ Forall (generated CONFIG) rows
    /\ Z.of_nat (flushes (snd (main w))) = Z.of_nat (flushes w) + 10
    /\ Z.of_nat (cursor (snd (main w))) = Z.of_nat (cursor w) + 9000000.
Proof.
  assert (Vs : valid_ymd (start_date CONFIG) = true) by (vm_compute; reflexivity).
  assert (Ve : valid_ymd (end_date CONFIG) = true) by (vm_compute; reflexivity).
  assert (Hr : ymd2ord (start_date CONFIG) <= ymd2ord (end_date CONFIG))
    by (vm_compute; discriminate).
  assert (Hb : batch_size CONFIG <> 0) by (cbn; lia).
  set (w1 := set_clock_reads (S (clock_reads w)) w).
  destruct (generate_to_csv_Ok CONFIG Vs Ve Hr Hb w1)
    as (rows & w2 & Hrun & Hall & Hids & Hdisk & _).
  destruct (generate_to_csv_account CONFIG Vs Ve Hr Hb w1) as (w3 & Hrun3 & Hc & _ & Hf).
  rewrite Hrun in Hrun3. injection Hrun3 as <-.
  exists rows. unfold main.
  rewrite main_with_unfold by (vm_compute; discriminate). fold w1. rewrite Hrun.
  cbn [fst snd disk flushes cursor set_stdout set_clock_reads].
  change (total_records CONFIG) with 1000000 in *.
  change (batch_size CONFIG) with 100000 in *.
  rewrite Hc, Hf, Z2Nat.id by lia.
  replace (1000000 / Z.abs 100000) with 10 by reflexivity.
  subst w1. cbn [flushes cursor set_clock_reads].
  repeat split; try assumption; lia.
Qed.

(** X12: [generate_to_csv] prints the two opening lines in every run, and
    the success line, the path and the file size only when it completes: a
    run that raises has printed the two opening lines and nothing else. *)
Theorem success_announced_only_on_completion (self : config) (w : world) :
  match fst (generate_to_csv self w) with
  | Ok _ =>
      exists size,
        stdout (snd (generate_to_csv self w))
        = stdout w ++ [MsgGenerating (total_records self);
                       MsgDateRange (start_date self) (end_date self);
                       MsgSuccess (total_records self);
                       MsgSavedTo (output_file self);
                       MsgFileSize size]
  | Raised _ =>
      stdout (snd (generate_to_csv self w))
      = stdout w ++ [MsgGenerating (total_records self);
                     MsgDateRange (start_date self) (end_date self)]
  end.
Proof.
  assert (Hfail : (forall route w1,
                      generate_flight_record self 1 route w1 = (Raised ValueError, w1)) ->
                  0 < total_records self ->
                  match fst (generate_to_csv self w) with
                  | Ok _ =>
                      exists size,
                        stdout (snd (generate_to_csv self w))
                        = stdout w ++ success_messages self size
                  | Raised _ =>
                      stdout (snd (generate_to_csv self w))
                      = stdout w ++ [MsgGenerating (total_records self);
                                     MsgDateRange (start_date self) (end_date self)]
                  end).
  { intros Hgen H1.
    rewrite (generate_to_csv_first_call_raises self w Hgen ltac:(lia)).
    cbn [fst snd]. reflexivity. }
  change (match fst (generate_to_csv self w) with
          | Ok _ =>
              exists size,
                stdout (snd (generate_to_csv self w))
                = stdout w ++ success_messages self size
          | Raised _ =>
              stdout (snd (generate_to_csv self w))
              = stdout w ++ [MsgGenerating (total_records self);
                             MsgDateRange (start_date self) (end_date self)]
          end).
  destruct (Z.le_gt_cases (total_records self) 0) as [H0 | H1].
  { rewrite (generate_to_csv_none self w H0). cbn [fst snd]. exists 1%nat. reflexivity. }
  destruct (valid_ymd (start_date self)) eqn:Vs.
  2:{ apply Hfail; [| exact H1].
      intros. apply generate_flight_record_no_such_day. left. exact Vs. }
  destruct (valid_ymd (end_date self)) eqn:Ve.
  2:{ apply Hfail; [| exact H1].
      intros. apply generate_flight_record_no_such_day. right. exact Ve. }
  destruct (Z.le_gt_cases (ymd2ord (start_date self)) (ymd2ord (end_date self)))
    as [L | G].
  2:{ apply Hfail; [| exact H1].
      intros. apply generate_flight_record_inverted; assumption. }
  destruct (Z.eq_dec (batch_size self) 0) as [Hb | Hb].
  - destruct (generate_to_csv_batch_zero self Vs Ve L Hb w ltac:(lia))
      as (r & _ & _ & Hf & _ & Hout).
    rewrite Hf. exact Hout.
  - destruct (generate_to_csv_Ok self Vs Ve L Hb w) as (rs & w' & Hrun & _ & _ & _ & Hout).
    rewrite Hrun. cbn [fst snd]. eexists. exact Hout.
Qed.

(** ** The fields of a record *)

Lemma trunc_fast_sound (x : float) (v : PrimInt63.int) :
  trunc_fast x = Some v ->
  trunc_float x = inr (Uint63.to_Z v) /\ 0 <= Uint63.to_Z v < 2 ^ 53.
Proof.
  unfold trunc_fast. destruct (frshiftexp x) as [r se] eqn:Efr.
  destruct (negb (is_nan x) && negb (is_zero x) && negb (is_infinity x)
            && negb (get_sign x)
            && Uint63.leb int_2p52 (normfr_mantissa r)
            && Uint63.ltb (normfr_mantissa r) int_2p53
            && Uint63.leb int_2102 se && Uint63.leb se int_2154) eqn:C;
    [| discriminate].
  intros H. injection H as <-.
  repeat rewrite andb_true_iff in C.
  destruct C as [[[[[[[Hnan Hzero] Hinf] Hsign] Hn1] Hn2] He1] He2].
  apply negb_true_iff in Hnan, Hzero, Hinf, Hsign.
  apply Uint63.leb_spec in Hn1, He1, He2. apply Uint63.ltb_spec in Hn2.
  rewrite Uint63.lsr_spec, Uint63.sub_spec.
  change (Uint63.to_Z int_2p52) with (2 ^ 52) in Hn1.
  change (Uint63.to_Z int_2p53) with (2 ^ 53) in Hn2.
  change (Uint63.to_Z int_2102) with 2102 in He1.
  change (Uint63.to_Z int_2154) with 2154 in He2 |- *.
  change Uint63.wB with (2 ^ 63).
  set (N := Uint63.to_Z (normfr_mantissa r)) in *.
  set (E := Uint63.to_Z se) in *.
  rewrite (Z.mod_small (2154 - E)) by lia.
  assert (Hpow : 0 < 2 ^ (2154 - E)) by (apply Z.pow_pos_nonneg; lia).
  assert (Hq : 0 <= N / 2 ^ (2154 - E) <= N).
  { split; [apply Z.div_pos; lia |].
    apply Z.div_le_upper_bound; [lia |]. nia. }
  split; [| lia].
  unfold trunc_float, Prim2SF. rewrite Hnan, Hzero, Hinf, Hsign.
  unfold Z.frexp. rewrite Efr. fold N. fold E.
  unfold shr_fexp.
  destruct N as [| p | p] eqn:EN; [lia | | lia].
  unfold Zdigits2. rewrite (digits2_pos_53 p) by lia.
  unfold fexp, SpecFloat.emin, emax, prec, shift.
  replace (Z.max (53 + (E - 2101 - 53) - 53) (3 - 1024 - 53)) with (E - 2101 - 53) by lia.
  rewrite Z.sub_diag. cbn [shr shr_record_of_loc shr_m].
  destruct (E - 2101 - 53) as [| q | q] eqn:EE.
  - replace (2154 - E) with 0 by lia. rewrite Z.pow_0_r, Z.div_1_r. reflexivity.
  - lia.
  - rewrite Z.shiftr_div_pow2 by lia.
    replace (2154 - E) with (Z.pos q) by lia. reflexivity.
Qed.

Lemma near_exact_sound (v : PrimInt63.int) (m k : Z) :
  0 <= Uint63.to_Z v < 2 ^ 53 -> 0 <= m <= 400 -> 0 <= k <= 9500 ->
  near_exact v (Uint63.of_Z m) (Uint63.of_Z k) = true ->
  m * k / 10000 - 1 <= Uint63.to_Z v <= m * k / 10000 /\ 27 <= Uint63.to_Z v.
Proof.
  intros Hv Hm Hk. unfold near_exact. cbv zeta.
  rewrite andb_true_iff, orb_true_iff. intros [He H27].
  apply Uint63.leb_spec in H27. change (Uint63.to_Z int_27) with 27 in H27.
  assert (E : Uint63.to_Z (Uint63.div (Uint63.mul (Uint63.of_Z m) (Uint63.of_Z k)) int_10000)
              = m * k / 10000).
  { rewrite Uint63.div_spec, Uint63.mul_spec, !Uint63.of_Z_spec.
    change Uint63.wB with (2 ^ 63). change (Uint63.to_Z int_10000) with 10000.
    rewrite (Z.mod_small m), (Z.mod_small k) by lia.
    rewrite Z.mod_small by nia. reflexivity. }
  split; [| exact H27].
  destruct He as [He | He]; apply Uint63.eqb_spec in He;
    apply (f_equal Uint63.to_Z) in He; rewrite E in He.
  - lia.
  - rewrite Uint63.add_spec in He. change (Uint63.to_Z int_1) with 1 in He.
    change Uint63.wB with (2 ^ 63) in He. rewrite Z.mod_small in He by lia. lia.
Qed.

Lemma passengers_exact_check_all :
  forallb passengers_exact_check (zrange 6000 3501) = true.
Proof. vm_compute. reflexivity. Qed.

Lemma passengers_exact (m k : Z) :
  45 <= m <= 400 -> 6000 <= k <= 9500 ->
  exists p,
    int_of_float (float_of_Z m * (hundredths_to_float k / 100))%float = ret p
    /\ m * k / 10000 - 1 <= p <= m * k / 10000 /\ 27 <= p.
Proof.
  intros Hm Hk.
  pose proof (zrange_forallb _ _ _ passengers_exact_check_all k ltac:(lia)) as A.
  unfold passengers_exact_check in A. cbv zeta in A.
  pose proof (zrange_forallb _ _ _ A m ltac:(lia)) as B. cbv beta in B.
  destruct (trunc_fast (float_of_Z m * (hundredths_to_float k / 100))%float)
    as [v |] eqn:Ev; [| discriminate B].
  destruct (trunc_fast_sound _ v Ev) as [Ht Hv].
  exists (Uint63.to_Z v). split.
  - unfold int_of_float. rewrite Ht. reflexivity.
  - apply near_exact_sound; [assumption | lia | lia | exact B].
Qed.

Lemma read_2f_format (k : Z) :
  6000 <= k <= 9500 -> read_2f (format_2f_hundredths k) = Some k.
Proof.
  intros H.
  assert (A : forallb (fun k => match read_2f (format_2f_hundredths k) with
                                | Some k' => k' =? k
                                | None => false
                                end) (zrange 6000 3501) = true)
    by (vm_compute; reflexivity).
  pose proof (zrange_forallb _ _ _ A k ltac:(lia)) as B. cbv beta in B.
  destruct (read_2f (format_2f_hundredths k)) as [k' |]; [| discriminate B].
  apply Z.eqb_eq in B. subst k'. reflexivity.
Qed.

(** The passenger count of the record that [generate_flight_record]
    returns, against the exact product of the adjusted capacity and the load
    factor. *)
Lemma generate_flight_record_passengers (self : config) (id route : Z) (w : world) :
  valid_ymd (start_date self) = true ->
  valid_ymd (end_date self) = true ->
  ymd2ord (start_date self) <= ymd2ord (end_date self) ->
  exists r,
    fst (generate_flight_record self id route w) = Ok r
    /\ fst (adjusted (cabin_class_of (drawn_rand_val w))
              (fst (drawn_body w)) (snd (drawn_body w)))
       * drawn_hundredths w / 10000 - 1
       <= passengers r
       <= fst (adjusted (cabin_class_of (drawn_rand_val w))
                 (fst (drawn_body w)) (snd (drawn_body w)))
          * drawn_hundredths w / 10000
    /\ 27 <= passengers r.
Proof.
  intros start_valid end_valid range_ok.
  set (s := ymd2ord (start_date self)) in *.
  set (e := ymd2ord (end_date self)) in *.
  set (adj := adjusted (cabin_class_of (drawn_rand_val w))
                (fst (drawn_body w)) (snd (drawn_body w))).
  destruct (drawn_body_bounds w) as [Hb1 Hb2].
  pose proof (adjusted_range (cabin_class_of (drawn_rand_val w)) _ _ Hb1 Hb2) as Hadj.
  fold adj in Hadj. destruct Hadj as [Ha1 Ha2].
  assert (Hk : 6000 <= drawn_hundredths w <= 9500).
  { unfold drawn_hundredths. pose proof (mod_range (raw w 7) 3501). lia. }
  destruct (passengers_exact (fst adj) (drawn_hundredths w) Ha1 Hk) as (p & Hp & Hpr).
  pose proof (ymd2ord_range _ start_valid) as Rs.
  pose proof (ymd2ord_range _ end_valid) as Re.
  fold s in Rs. fold e in Re.
  assert (range_ok' : 0 <= e - s) by lia.
  assert (Hoff : 0 <= drawn_offset self w <= e - s).
  { unfold drawn_offset. fold s e. pose proof (mod_range (raw w 0) (e - s + 1 - 0)). lia. }
  assert (Hgen : exists r w',
             generate_flight_record self id route w = (Ok r, w') /\ passengers r = p).
  2:{ destruct Hgen as (r & w' & Hgen & Hpass). exists r. rewrite Hgen, Hpass.
      split; [reflexivity | exact Hpr]. }
  eexists. eexists. split; [| shelve].
  unfold generate_flight_record.
  step s w ltac:(exact (strptime_Ok _ w start_valid)).
  step e w ltac:(exact (strptime_Ok _ w end_valid)).
  step (drawn_offset self w) (set_cursor (1 + cursor w) w)
    ltac:(exact (randint_Ok 0 (e - s) w range_ok')).
  step (s + drawn_offset self w) (set_cursor (1 + cursor w) w)
    ltac:(apply add_days_Ok; lia).
  step (drawn_airline w) (set_cursor (2 + cursor w) w) ltac:(exact (choice_Ok _ _)).
  step (drawn_number w) (set_cursor (3 + cursor w) w)
    ltac:(exact (randint_Ok 100 9999 _ ltac:(lia))).
  step (drawn_aircraft w) (set_cursor (4 + cursor w) w) ltac:(exact (choice_Ok _ _)).
  step (drawn_rand_val w) (set_cursor (5 + cursor w) w)
    ltac:(exact (randint_Ok 1 100 _ ltac:(lia))).
  step (drawn_body w) (set_cursor (7 + cursor w) w) ltac:(exact (draw_body_Ok _ _)).
  step adj (set_cursor (7 + cursor w) w) ltac:(apply adjust_for_cabin_Ok; assumption).
  step (drawn_hundredths w) (set_cursor (8 + cursor w) w)
    ltac:(exact (randint_Ok 6000 9500 _ ltac:(lia))).
  step p (set_cursor (8 + cursor w) w) ltac:(rewrite Hp; reflexivity).
  reflexivity.
  Unshelve. reflexivity.
Qed.

Lemma cabin_class_of_cases (v : Z) :
  cabin_class_of v = "economy" \/ cabin_class_of v = "business"
  \/ cabin_class_of v = "first".
Proof.
  unfold cabin_class_of. destruct (v <? 85); [left; reflexivity |].
  destruct (v <? 97); [right; left | right; right]; reflexivity.
Qed.

(** X3: in every record that [generate_flight_record] returns,
    [cabin_class] is one of the three literals, and [co2_per_passenger_kg]
    is the base emission drawn for the aircraft type for economy, three
    halves of it rounded down for business, and twice it for first: a value
    from 80 to 500. *)
Theorem co2_per_passenger_by_class
    (self : config) (id route : Z) (w : world) (r : FlightRecord) :
  fst (generate_flight_record self id route w) = Ok r ->
  (cabin_class r = "economy" \/ cabin_class r = "business" \/ cabin_class r = "first")
  /\ exists max_pax base_co2,
       fst (draw_body (aircraft_type r) (set_cursor (5 + cursor w) w))
       = Ok (max_pax, base_co2)
       /\ (cabin_class r = "economy" -> co2_per_passenger_kg r = base_co2)
       /\ (cabin_class r = "business" -> co2_per_passenger_kg r = base_co2 * 3 / 2)
       /\ (cabin_class r = "first" -> co2_per_passenger_kg r = base_co2 * 2)
       /\ 80 <= co2_per_passenger_kg r <= 500.
Proof.
  intros H.
  destruct (generated_record_shape self id route w r H)
    as (_ & _ & _ & _ & Ht & Hc & _ & Hco2 & _).
  split; [rewrite Hc; apply cabin_class_of_cases |].
  destruct (drawn_body_bounds w) as [Hb1 Hb2].
  exists (fst (drawn_body w)), (snd (drawn_body w)).
  split.
  { rewrite draw_body_Ok. cbn [fst]. rewrite Ht. unfold drawn_body.
    destruct (is_narrow_body (drawn_aircraft w)); reflexivity. }
  pose proof (adjusted_range (cabin_class r) _ _ Hb1 Hb2) as [_ Hrange].
  rewrite <- Hco2 in Hrange.
  repeat split; try lia; intros E; rewrite Hco2, E; reflexivity.
Qed.

Lemma co2_per_passenger_by_class_witness :
  (cabin_class example_record = "economy" \/ cabin_class example_record = "business"
   \/ cabin_class example_record = "first")
  /\ exists max_pax base_co2,
       fst (draw_body (aircraft_type example_record)
              (set_cursor (5 + cursor example_world) example_world))
       = Ok (max_pax, base_co2)
       /\ (cabin_class example_record = "economy" ->
           co2_per_passenger_kg example_record = base_co2)
       /\ (cabin_class example_record = "business" ->
           co2_per_passenger_kg example_record = base_co2 * 3 / 2)
       /\ (cabin_class example_record = "first" ->
           co2_per_passenger_kg example_record = base_co2 * 2)
       /\ 80 <= co2_per_passenger_kg example_record <= 500.
Proof.
  apply (co2_per_passenger_by_class (small_config 3) 1 42 example_world).
  vm_compute. reflexivity.
Defined.

(** X4: in every record that [generate_flight_record] returns,
    [passengers] is the exact product of the adjusted capacity and the
    printed load factor, rounded down, or one less (the product is computed
    on doubles); it is from 27 to 380, and [total_co2_kg] is from 4320 to
    95000. *)
Theorem passengers_near_exact_product
    (self : config) (id route : Z) (w : world) (r : FlightRecord) :
  fst (generate_flight_record self id route w) = Ok r ->
  exists max_pax base_co2 capacity k,
    fst (draw_body (aircraft_type r) (set_cursor (5 + cursor w) w))
    = Ok (max_pax, base_co2)
    /\ fst (adjust_for_cabin (cabin_class r) max_pax base_co2 w)
       = Ok (capacity, co2_per_passenger_kg r)
    /\ read_2f (load_factor r) = Some k
    /\ capacity * k / 10000 - 1 <= passengers r <= capacity * k / 10000
    /\ 27 <= passengers r <= 380
    /\ 4320 <= total_co2_kg r <= 95000.
Proof.
  intros H.
  destruct (generate_flight_record_Ok_dates self id route w r H) as (Vs & Ve & Hr).
  destruct (generate_flight_record_passengers self id route w Vs Ve Hr)
    as (r' & Hr' & Hp & H27).
  rewrite H in Hr'. injection Hr' as <-.
  destruct (generated_record_shape self id route w r H)
    as (_ & _ & _ & _ & Ht & Hc & _ & Hco2 & Htot & Hl & _).
  destruct (drawn_body_bounds w) as [Hb1 Hb2].
  assert (Hk : 6000 <= drawn_hundredths w <= 9500).
  { unfold drawn_hundredths. pose proof (mod_range (raw w 7) 3501). lia. }
  rewrite <- Hc in Hp.
  exists (fst (drawn_body w)), (snd (drawn_body w)).
  exists (fst (adjusted (cabin_class r) (fst (drawn_body w)) (snd (drawn_body w)))).
  exists (drawn_hundredths w).
  split.
  { rewrite draw_body_Ok. cbn [fst]. rewrite Ht. unfold drawn_body.
    destruct (is_narrow_body (drawn_aircraft w)); reflexivity. }
  split.
  { rewrite (adjust_for_cabin_Ok _ _ _ w Hb1 Hb2). cbn [fst]. rewrite Hco2.
    rewrite <- surjective_pairing. reflexivity. }
  split; [rewrite Hl; apply read_2f_format; exact Hk |].
  split; [exact Hp |].
  rewrite Htot, Hco2. revert Hp. unfold adjusted.
  destruct (cabin_class r =? "business")%string;
    [| destruct (cabin_class r =? "first")%string]; cbn [fst snd]; intros Hp;
    (split; [split; [exact H27 |] |]);
    Z.div_mod_to_equations; nia.
Qed.

Lemma passengers_near_exact_product_witness :
  exists max_pax base_co2 capacity k,
    fst (draw_body (aircraft_type rounding_record)
           (set_cursor (5 + cursor rounding_world) rounding_world))
    = Ok (max_pax, base_co2)
    /\ fst (adjust_for_cabin (cabin_class rounding_record) max_pax base_co2
              rounding_world)
       = Ok (capacity, co2_per_passenger_kg rounding_record)
    /\ read_2f (load_factor rounding_record) = Some k
    /\ capacity * k / 10000 - 1 <= passengers rounding_record <= capacity * k / 10000
    /\ 27 <= passengers rounding_record <= 380
    /\ 4320 <= total_co2_kg rounding_record <= 95000.
Proof.
  apply (passengers_near_exact_product (small_config 3) 1 42 rounding_world).
  vm_compute. reflexivity.
Defined.

(** The lower value occurs: capacity 400 at load factor 62.75 gives 250
    passengers, where the exact product is 251. *)
Lemma passengers_below_exact_product_example :
  fst (generate_flight_record (small_config 3) 1 42 rounding_world) = Ok rounding_record
  /\ load_factor rounding_record = "62.75"
  /\ cabin_class rounding_record = "economy"
  /\ passengers rounding_record = 250
  /\ 400 * 6275 / 10000 = 251.
Proof. vm_compute. repeat split. Qed.
